(** * ion_processing: loading a dataset from a URL

    A shallow embedding of [src/ion_processing.py]: the nested format
    detector [detect_file_type], the loader [load_data_from_url] and the
    helper [lat_long_to_point], followed by the properties of the
    specification that were checked against them.

    Conventions of the embedding.
    - A Python [str] is a [string] whose characters are the code points
      0..255; [bytes] are [list byte].
    - A call that may raise returns a [result]; statements that touch the
      file system or a library run in the monad [M], which threads the
      file system and the journal of library calls, and keeps both when an
      exception propagates.
    - The libraries (requests, zipfile, pandas, geopandas, rasterio,
      shutil) are the fields of a [Backend]; nothing is assumed of them
      beyond what a theorem states. *)

From Stdlib Require Import ZArith Bool List Lia.
From Stdlib.Strings Require Import Ascii String Byte.
From Stdlib Require Import Floats.
From Stdlib Require Import DecimalString.
Import ListNotations.

Local Open Scope string_scope.
Local Open Scope Z_scope.

(* ================================================================== *)
(** ** Strings: [str.lower], [str.rfind], slices *)

Module Str.

(** The upper-case letters among the code points 0..255: A-Z, and the
    Latin-1 letters 0xC0-0xDE without the multiplication sign 0xD7.
    Each has its lower-case form 32 code points higher. *)
Definition is_upper (c : ascii) : bool :=
  let n := nat_of_ascii c in
  ((65 <=? n) && (n <=? 90)
   || (192 <=? n) && (n <=? 222) && negb (n =? 215))%nat.

Definition lower_char (c : ascii) : ascii :=
  if is_upper c then ascii_of_nat (nat_of_ascii c + 32) else c.

(** [s.lower()] *)
Fixpoint lower (s : string) : string :=
  match s with
  | EmptyString => EmptyString
  | String c s' => String (lower_char c) (lower s')
  end.

(** [s.rfind(c)] for a one-character [c], counting from [i]: the highest
    index at which [c] occurs, [-1] when it does not occur. *)
Fixpoint rfind_from (i : Z) (s : string) (c : ascii) : Z :=
  match s with
  | EmptyString => -1
  | String a s' =>
      let r := rfind_from (i + 1) s' c in
      if 0 <=? r then r else if Ascii.eqb a c then i else -1
  end.

Definition rfind (s : string) (c : ascii) : Z := rfind_from 0 s c.

(** [s[i:]] and [s[:i]] for [0 <= i]. *)
Fixpoint slice_from (i : nat) (s : string) : string :=
  match i, s with
  | O, _ => s
  | S _, EmptyString => EmptyString
  | S k, String _ s' => slice_from k s'
  end.

Fixpoint slice_to (i : nat) (s : string) : string :=
  match i, s with
  | O, _ => EmptyString
  | S _, EmptyString => EmptyString
  | S k, String a s' => String a (slice_to k s')
  end.

(** [c in s] for a one-character [c]. *)
Fixpoint contains (c : ascii) (s : string) : bool :=
  match s with
  | EmptyString => false
  | String a s' => Ascii.eqb a c || contains c s'
  end.

(** [s.startswith(c)] and [s.endswith(c)] for a one-character [c]. *)
Definition startswith (s : string) (c : ascii) : bool :=
  match s with
  | String a _ => Ascii.eqb a c
  | EmptyString => false
  end.

Fixpoint endswith (s : string) (c : ascii) : bool :=
  match s with
  | EmptyString => false
  | String a EmptyString => Ascii.eqb a c
  | String _ s' => endswith s' c
  end.

End Str.

(* ================================================================== *)
(** ** [os.path] on a POSIX system *)

Module posixpath.

Definition sep : ascii := "/"%char.
Definition extsep : ascii := "."%char.

(** The loop of [genericpath._splitext] that skips the leading dots of
    the file name: [true] as soon as one of the [steps] characters from
    [filenameIndex] on differs from [extsep]. *)
Fixpoint has_stem (p : string) (filenameIndex steps : nat) : bool :=
  match steps with
  | O => false
  | S k =>
      match String.get filenameIndex p with
      | Some c =>
          if Ascii.eqb c extsep then has_stem p (S filenameIndex) k
          else true
      | None => true
      end
  end.

(** [genericpath._splitext(p, sep, None, extsep)]: the extension starts
    at the last dot of the last path component, and leading dots of
    that component do not start an extension. *)
Definition splitext (p : string) : string * string :=
  let sepIndex := Str.rfind p sep in
  let dotIndex := Str.rfind p extsep in
  if (sepIndex <? dotIndex)
     && has_stem p (Z.to_nat (sepIndex + 1))
                 (Z.to_nat (dotIndex - (sepIndex + 1)))
  then (Str.slice_to (Z.to_nat dotIndex) p,
        Str.slice_from (Z.to_nat dotIndex) p)
  else (p, EmptyString).

(** [os.path.join(a, b)] *)
Definition join (a b : string) : string :=
  if Str.startswith b sep then b
  else if String.eqb a "" || Str.endswith a sep then a ++ b
  else a ++ String sep b.

End posixpath.

(* ================================================================== *)
(** ** The format detector *)

(** The seven strings [detect_file_type] can return. *)
Inductive FormatTag : Set :=
| csv | txt | xls | xlsx | vector | raster | unknown.

(** The extension lists of [detect_file_type]. *)
Definition vector_exts : list string :=
  [".shp"; ".geojson"; ".gpkg"; ".json"; ".kml"].

Definition raster_exts : list string := [".tif"; ".tiff"].

Definition known_exts : list string :=
  [".csv"; ".txt"; ".xls"; ".xlsx"] ++ vector_exts ++ raster_exts.

(** [ext in [...]] *)
Definition ext_in (ext : string) (l : list string) : bool :=
  existsb (String.eqb ext) l.

(** The chain of tests of [detect_file_type] on the extension. *)
Definition tag_of_ext (ext : string) : FormatTag :=
  if ext_in ext [".csv"] then csv
  else if ext_in ext [".txt"] then txt
  else if ext_in ext [".xls"] then xls
  else if ext_in ext [".xlsx"] then xlsx
  else if ext_in ext vector_exts then vector
  else if ext_in ext raster_exts then raster
  else unknown.

Definition detect_file_type (path : string) : FormatTag :=
  let ext := snd (posixpath.splitext (Str.lower path)) in
  tag_of_ext ext.

(** The detector as the specification words it: the extension is what
    follows the final ['.'] of the lower-cased path (the dot included),
    and is empty when the path has no dot. *)
Fixpoint ext_after_final_dot (s : string) : string :=
  match s with
  | EmptyString => EmptyString
  | String c s' =>
      if Str.contains posixpath.extsep s' then ext_after_final_dot s'
      else if Ascii.eqb c posixpath.extsep then s
      else EmptyString
  end.

Definition detect_format_spec (path : string) : FormatTag :=
  tag_of_ext (ext_after_final_dot (Str.lower path)).

(** The last component of a path: what follows its last ['/']. *)
Fixpoint basename (s : string) : string :=
  match s with
  | EmptyString => EmptyString
  | String c s' =>
      if Str.contains posixpath.sep s' then basename s'
      else if Ascii.eqb c posixpath.sep then s'
      else s
  end.

(** What precedes the final ['.'] of [s]; [None] when [s] has no dot. *)
Fixpoint before_final_dot (s : string) : option string :=
  match s with
  | EmptyString => None
  | String c s' =>
      match before_final_dot s' with
      | Some r => Some (String c r)
      | None => if Ascii.eqb c posixpath.extsep then Some EmptyString else None
      end
  end.

Fixpoint all_dots (s : string) : bool :=
  match s with
  | EmptyString => true
  | String c s' => Ascii.eqb c posixpath.extsep && all_dots s'
  end.

(** A dot file: the last component has a dot, and nothing but dots
    precedes its final dot ([.csv], [dir/.csv], [..tif]). *)
Definition dotfile (s : string) : bool :=
  match before_final_dot (basename s) with
  | Some stem => all_dots stem
  | None => false
  end.

(* ================================================================== *)
(** ** Python values, exceptions and results *)

Definition Bytes := list byte.

(** The values that travel as keyword arguments or live in the module
    namespace; [PyObject] stands for any other object (a module, a
    function, a CRS object), named by its [repr]. *)
Inductive PyVal : Type :=
| PyNone
| PyBool (b : bool)
| PyInt (n : Z)
| PyStr (s : string)
| PyObject (repr : string).

Definition Kwargs := list (string * PyVal).

(** What the loader uses of a [requests.Response]. *)
Record Response : Type := mkResponse {
  status_code : Z;
  reason : string;
  resp_url : string;
  content : Bytes
}.

(** The exceptions the module raises itself or takes from requests, and
    [LibraryError] for any other exception raised inside a library call
    ([KeyError], [BadZipFile], [ParserError], [FileNotFoundError], ...). *)
Inductive exn : Type :=
| NameError (name : string)
| UnboundLocalError (name : string)
| ValueError (msg : string)
| NotImplementedError (msg : string)
| HTTPError (msg : string) (response : Response)
| LibraryError (cls msg : string).

Inductive result (A : Type) : Type :=
| Ok (a : A)
| Raise (e : exn).
Arguments Ok {A} a.
Arguments Raise {A} e.

Definition is_ok {A} (r : result A) : bool :=
  match r with Ok _ => true | Raise _ => false end.

(** ** The data model *)

(** A cell of a table: a float, or any other object (shown by its text). *)
Inductive Cell : Type :=
| CFloat (f : float)
| CObj (s : string).

Record DataFrame : Type := mkDataFrame {
  columns : list (string * list Cell)
}.

Inductive Geometry : Type :=
| mkPoint (x y : float)
| mkShape (wkt : string).

Record GeoDataFrame : Type := mkGeoDataFrame {
  frame : DataFrame;
  geometry : list Geometry;
  crs : PyVal
}.

Record DatasetReader : Type := mkDatasetReader {
  ds_name : string;
  ds_data : Bytes
}.

(** What [load_data_from_url] returns. *)
Inductive Data : Type :=
| Tabular (df : DataFrame)
| Geospatial (gdf : GeoDataFrame)
| Raster (ds : DatasetReader).

(** What a reader is given: the [io.BytesIO] over the downloaded bytes,
    the open member of the archive, or a path on disk. *)
Inductive Source : Type :=
| Buffer (b : Bytes)
| MemberStream (name : string) (b : Bytes)
| FilePath (path : string).

Inductive Reader : Set := Rcsv | Rexcel | Rvector | Rraster.

(** The journal of library calls, in the order they are made. *)
Inductive Event : Type :=
| EvGet (url : string) (headers : list (string * string))
| EvZipFile
| EvOpenMember (name : string)
| EvRead (r : Reader) (src : Source) (kw : Kwargs)
| EvToCrs (target : PyVal)
| EvExtractAll (dir : string)
| EvRmtree (dir : string).

Definition is_member_read (e : Event) : bool :=
  match e with
  | EvRead _ (MemberStream _ _) _ => true
  | _ => false
  end.

Definition is_rmtree (e : Event) : bool :=
  match e with
  | EvRmtree _ => true
  | _ => false
  end.

(** ** The libraries *)

Record Backend : Type := mkBackend {
  FS : Type;
  ZipArchive : Type;
  requests_get : string -> list (string * string) -> result Response;
  zipfile_ZipFile : Bytes -> result ZipArchive;
  ZipFile_open : ZipArchive -> string -> result Bytes;
  ZipFile_extractall : ZipArchive -> string -> FS -> result unit * FS;
  shutil_rmtree : string -> FS -> result unit * FS;
  os_path_abspath : string -> string;
  os_path_exists : FS -> string -> bool;
  pd_read_csv : FS -> Source -> Kwargs -> result DataFrame;
  pd_read_excel : FS -> Source -> Kwargs -> result DataFrame;
  gpd_read_file : FS -> Source -> Kwargs -> result GeoDataFrame;
  rasterio_open : FS -> Source -> Kwargs -> result DatasetReader;
  GeoDataFrame_to_crs : GeoDataFrame -> PyVal -> result GeoDataFrame;
  Point_coerce : Cell -> Cell -> result Geometry
}.

(** [shutil.rmtree] as documented: once it returns, the tree is gone. *)
Definition rmtree_removes (B : Backend) : Prop :=
  forall (d : string) (s s' : FS B),
    shutil_rmtree B d s = (Ok tt, s') -> os_path_exists B s' d = false.

(** [Response.raise_for_status()] of requests: an [HTTPError] for the
    statuses 400..599, nothing for any other status. *)
Definition str_of_int (n : Z) : string := NilZero.string_of_int (Z.to_int n).

Definition http_error_msg (r : Response) : option string :=
  if (400 <=? status_code r) && (status_code r <? 500) then
    Some (str_of_int (status_code r) ++ " Client Error: " ++ reason r
          ++ " for url: " ++ resp_url r)
  else if (500 <=? status_code r) && (status_code r <? 600) then
    Some (str_of_int (status_code r) ++ " Server Error: " ++ reason r
          ++ " for url: " ++ resp_url r)
  else None.

Definition raise_for_status (r : Response) : result unit :=
  match http_error_msg r with
  | Some msg => Raise (HTTPError msg r)
  | None => Ok tt
  end.

(** ** The module namespace *)

Definition Globals := list (string * PyVal).

Fixpoint lookup (g : Globals) (name : string) : option PyVal :=
  match g with
  | [] => None
  | (n, v) :: g' => if String.eqb n name then Some v else lookup g' name
  end.

(** Reading a global name: [NameError] when the namespace does not bind
    it (no builtin is called [saws_crs]). *)
Definition load_global (g : Globals) (name : string) : result PyVal :=
  match lookup g name with
  | Some v => Ok v
  | None => Raise (NameError name)
  end.

Definition data_url : string :=
  "https://www.sciencebase.gov/catalog/file/get/58937228e4b0fa1e59b73361?f=__disk__5a%2Fae%2F1a%2F5aae1aa25f84b94737628e43ef82e34f6897a63b".

(** Every name the module binds, from its imports to the last line of the
    script; the namespace at any moment of the run is a part of it. *)
Definition module_globals : Globals :=
  [ ("pd", PyObject "module pandas");
    ("gpd", PyObject "module geopandas");
    ("rasterio", PyObject "module rasterio");
    ("requests", PyObject "module requests");
    ("zipfile", PyObject "module zipfile");
    ("io", PyObject "module io");
    ("os", PyObject "module os");
    ("shutil", PyObject "module shutil");
    ("Point", PyObject "class shapely.geometry.Point");
    ("load_data_from_url", PyObject "function load_data_from_url");
    ("lat_long_to_point", PyObject "function lat_long_to_point");
    ("data_url", PyStr data_url);
    ("data", PyObject "DataFrame");
    ("filtered_data", PyObject "DataFrame");
    ("num_rows_total", PyObject "int");
    ("num_rows_filtered", PyObject "int");
    ("num_rows_excluded", PyObject "int");
    ("num_rows_filtered2", PyObject "int");
    ("num_rows_excluded2", PyObject "int") ].

(* ================================================================== *)
(** ** The monad of statements *)

(** The state a call runs in: the file system and the journal. *)
Record World (B : Backend) : Type := mkWorld {
  fs : FS B;
  journal : list Event
}.
Arguments mkWorld {B} fs journal.
Arguments fs {B} w.
Arguments journal {B} w.

Declare Scope py_scope.
Delimit Scope py_scope with py.

Section Program.

Context {B : Backend}.

Definition M (A : Type) : Type := World B -> result A * World B.

Definition ret {A} (a : A) : M A := fun w => (Ok a, w).

Definition raise {A} (e : exn) : M A := fun w => (Raise e, w).

Definition bind {A C} (m : M A) (k : A -> M C) : M C :=
  fun w =>
    match m w with
    | (Ok a, w') => k a w'
    | (Raise e, w') => (Raise e, w')
    end.

(** [try: m  except: h] with a bare [except], which catches everything. *)
Definition try_except {A} (m : M A) (h : exn -> M A) : M A :=
  fun w =>
    match m w with
    | (Ok a, w') => (Ok a, w')
    | (Raise e, w') => h e w'
    end.

(** A pure expression that may raise. *)
Definition lift {A} (r : result A) : M A := fun w => (r, w).

Definition note (e : Event) (w : World B) : World B :=
  mkWorld (fs w) (journal w ++ [e]).

(** A library call that reads the file system at most. *)
Definition call {A} (e : Event) (f : FS B -> result A) : M A :=
  fun w => (f (fs w), note e w).

(** A library call that changes the file system. *)
Definition call_fs (e : Event) (f : FS B -> result unit * FS B) : M unit :=
  fun w => let (r, s) := f (fs w) in (r, mkWorld s (journal w ++ [e])).

Local Notation "x <- m ;; k" := (bind m (fun x => k))
  (at level 61, m at next level, right associativity) : py_scope.
Local Notation "m ;; k" := (bind m (fun _ => k))
  (at level 61, right associativity) : py_scope.
Local Open Scope py_scope.

(** *** The library calls the module makes *)

Definition get (url : string) (headers : list (string * string)) : M Response :=
  call (EvGet url headers) (fun _ => requests_get B url headers).

Definition ZipFile (payload : Bytes) : M (ZipArchive B) :=
  call EvZipFile (fun _ => zipfile_ZipFile B payload).

Definition open_member (z : ZipArchive B) (name : string) : M Bytes :=
  call (EvOpenMember name) (fun _ => ZipFile_open B z name).

Definition extractall (z : ZipArchive B) (dir : string) : M unit :=
  call_fs (EvExtractAll dir) (ZipFile_extractall B z dir).

Definition rmtree (dir : string) : M unit :=
  call_fs (EvRmtree dir) (shutil_rmtree B dir).

Definition read_csv (src : Source) (kw : Kwargs) : M DataFrame :=
  call (EvRead Rcsv src kw) (fun s => pd_read_csv B s src kw).

Definition read_excel (src : Source) (kw : Kwargs) : M DataFrame :=
  call (EvRead Rexcel src kw) (fun s => pd_read_excel B s src kw).

Definition read_file (src : Source) (kw : Kwargs) : M GeoDataFrame :=
  call (EvRead Rvector src kw) (fun s => gpd_read_file B s src kw).

Definition raster_open (src : Source) (kw : Kwargs) : M DatasetReader :=
  call (EvRead Rraster src kw) (fun s => rasterio_open B s src kw).

Definition to_crs (gdf : GeoDataFrame) (target : PyVal) : M GeoDataFrame :=
  call (EvToCrs target) (fun _ => GeoDataFrame_to_crs B gdf target).

(** [f(src, low_memory=False, **kwargs)] and [f(src, engine=e, **kwargs)] *)
Definition low_memory (kwargs : Kwargs) : Kwargs :=
  ("low_memory", PyBool false) :: kwargs.

Definition engine (e : string) (kwargs : Kwargs) : Kwargs :=
  ("engine", PyStr e) :: kwargs.

(** *** [load_data_from_url] *)

Definition user_agent : list (string * string) :=
  [("User-Agent", "Mozilla/5.0")].

Definition msg_check_url : string :=
  "Could not download data from this URL. Please check URL and try again.".

Definition msg_filepath : string :=
  "Must specify 'filepath' within ZIP archive.".

Definition msg_extraction : string :=
  "Shapefiles and rasters require extraction.".

Definition scratch : string := "extracted_data".

(** [gpd.read_file(src, **kwargs).to_crs(saws_crs)]: the file is read,
    then the global [saws_crs] is looked up, then [to_crs] is called. *)
Definition read_vector (g : Globals) (src : Source) (kwargs : Kwargs)
  : M GeoDataFrame :=
  gdf <- read_file src kwargs ;;
  target <- lift (load_global g "saws_crs") ;;
  to_crs gdf target.

(** Lines 48-62: the readers of the branch [not zipped]. *)
Definition read_unzipped (g : Globals) (file_type : FormatTag)
    (buffer : Source) (kwargs : Kwargs) : M Data :=
  match file_type with
  | csv | txt =>
      df <- read_csv buffer (low_memory kwargs) ;; ret (Tabular df)
  | xls =>
      df <- read_excel buffer (engine "xlrd" kwargs) ;; ret (Tabular df)
  | xlsx =>
      df <- read_excel buffer (engine "openpyxl" kwargs) ;; ret (Tabular df)
  | vector =>
      gdf <- read_vector g buffer kwargs ;; ret (Geospatial gdf)
  | raster =>
      ds <- raster_open buffer kwargs ;; ret (Raster ds)
  | unknown =>
      try_except
        (df <- read_csv buffer (low_memory kwargs) ;; ret (Tabular df))
        (fun _ => raise (ValueError msg_check_url))
  end.

(** Lines 72-79: the body of [with zip_file.open(filepath) as file].
    The local [data] is [None] as long as no branch has assigned it. *)
Definition read_member (file_type : FormatTag) (file : Source)
    (kwargs : Kwargs) : M (option Data) :=
  match file_type with
  | csv =>
      df <- read_csv file (low_memory kwargs) ;; ret (Some (Tabular df))
  | xls =>
      df <- read_excel file (engine "xlrd" kwargs) ;; ret (Some (Tabular df))
  | xlsx =>
      df <- read_excel file (engine "openpyxl" kwargs) ;;
      ret (Some (Tabular df))
  | vector | raster => raise (NotImplementedError msg_extraction)
  | txt | unknown => ret None
  end.

(** Lines 83-92: the readers of the [except] block. *)
Definition read_extracted (g : Globals) (file_type : FormatTag)
    (full_path : Source) (kwargs : Kwargs) : M (option Data) :=
  match file_type with
  | csv =>
      df <- read_csv full_path (low_memory kwargs) ;;
      ret (Some (Tabular df))
  | xls =>
      df <- read_excel full_path (engine "xlrd" kwargs) ;;
      ret (Some (Tabular df))
  | xlsx =>
      df <- read_excel full_path (engine "openpyxl" kwargs) ;;
      ret (Some (Tabular df))
  | vector =>
      gdf <- read_vector g full_path kwargs ;; ret (Some (Geospatial gdf))
  | raster =>
      ds <- raster_open full_path kwargs ;; ret (Some (Raster ds))
  | txt | unknown => ret None
  end.

Definition full_path_of (filepath : string) : string :=
  os_path_abspath B (posixpath.join scratch filepath).

(** Lines 81-93: the [except] block. *)
Definition extract_and_load (g : Globals) (zip_file : ZipArchive B)
    (filepath : string) (file_type : FormatTag) (kwargs : Kwargs)
  : M (option Data) :=
  extractall zip_file scratch ;;
  let full_path := full_path_of filepath in
  data <- read_extracted g file_type (FilePath full_path) kwargs ;;
  rmtree scratch ;;
  ret data.

(** Lines 70-79: the [try] block. *)
Definition read_in_archive (zip_file : ZipArchive B) (filepath : string)
    (file_type : FormatTag) (kwargs : Kwargs) : M (option Data) :=
  file <- open_member zip_file filepath ;;
  read_member file_type (MemberStream filepath file) kwargs.

(** [return data] *)
Definition return_local (name : string) (v : option Data) : M Data :=
  match v with
  | Some d => ret d
  | None => raise (UnboundLocalError name)
  end.

(** Lines 65-93: the branch [zipped]. *)
Definition load_zipped (g : Globals) (payload : Bytes)
    (filepath : option string) (kwargs : Kwargs) : M (option Data) :=
  zip_file <- ZipFile payload ;;
  match filepath with
  | None => raise (ValueError msg_filepath)
  | Some filepath =>
      let file_type := detect_file_type filepath in
      try_except
        (read_in_archive zip_file filepath file_type kwargs)
        (fun _ => extract_and_load g zip_file filepath file_type kwargs)
  end.

Definition load_data_from_url (g : Globals) (url : string) (zipped : bool)
    (filepath : option string) (kwargs : Kwargs) : M Data :=
  response <- get url user_agent ;;
  (if negb (status_code response =? 200)
   then lift (raise_for_status response) else ret tt) ;;
  data <-
    (if negb zipped then
       let file_type := detect_file_type url in
       let buffer := Buffer (content response) in
       d <- read_unzipped g file_type buffer kwargs ;; ret (Some d)
     else
       load_zipped g (content response) filepath kwargs) ;;
  return_local "data" data.

(** Lines 44-95 on their own: the loader once the response is in. *)
Definition after_fetch (g : Globals) (url : string) (zipped : bool)
    (filepath : option string) (kwargs : Kwargs) (response : Response)
  : M Data :=
  data <-
    (if negb zipped then
       let file_type := detect_file_type url in
       let buffer := Buffer (content response) in
       d <- read_unzipped g file_type buffer kwargs ;; ret (Some d)
     else
       load_zipped g (content response) filepath kwargs) ;;
  return_local "data" data.

(** *** [lat_long_to_point] *)

(** [df[col]]: the values of a column, [KeyError] when there is none. *)
Definition getitem (df : DataFrame) (col : string) : result (list Cell) :=
  match find (fun c => String.eqb (fst c) col) (columns df) with
  | Some (_, values) => Ok values
  | None => Raise (LibraryError "KeyError" col)
  end.

Definition nrows (df : DataFrame) : nat :=
  match columns df with
  | [] => O
  | (_, values) :: _ => List.length values
  end.

(** [Point(x, y)] of shapely: the point itself on two floats. *)
Definition Point (x y : Cell) : result Geometry :=
  match x, y with
  | CFloat a, CFloat b => Ok (mkPoint a b)
  | _, _ => Point_coerce B x y
  end.

(** [[Point(lon, lat) for lon, lat in pairs]] *)
Fixpoint points (pairs : list (Cell * Cell)) : result (list Geometry) :=
  match pairs with
  | [] => Ok []
  | (lon, lat) :: rest =>
      match Point lon lat with
      | Raise e => Raise e
      | Ok p =>
          match points rest with
          | Raise e => Raise e
          | Ok ps => Ok (p :: ps)
          end
      end
  end.

(** [gpd.GeoDataFrame(df, geometry=geom, crs=c)] *)
Definition GeoDataFrame_new (df : DataFrame) (geom : list Geometry)
    (c : PyVal) : result GeoDataFrame :=
  if Nat.eqb (List.length geom) (nrows df)
  then Ok (mkGeoDataFrame df geom c)
  else Raise (ValueError "Length of values does not match length of index").

Definition lat_long_to_point (g : Globals) (df : DataFrame)
    (lat_col long_col : string) : M GeoDataFrame :=
  longs <- lift (getitem df long_col) ;;
  lats <- lift (getitem df lat_col) ;;
  df_geo <- lift (points (combine longs lats)) ;;
  df <- lift (GeoDataFrame_new df df_geo (PyStr "EPSG:4326")) ;;
  target <- lift (load_global g "saws_crs") ;;
  to_crs df target.

End Program.

Arguments M B A : clear implicits.

Notation "x <- m ;; k" := (bind m (fun x => k))
  (at level 61, m at next level, right associativity) : py_scope.
Notation "m ;; k" := (bind m (fun _ => k))
  (at level 61, right associativity) : py_scope.
Arguments full_path_of B filepath : clear implicits.
Arguments Point B x y : clear implicits.
Arguments points B pairs : clear implicits.

(* ================================================================== *)
(** ** A small concrete backend

    Files are kept by absolute path below the working directory [/work];
    an archive is the list of its members; a reader turns the bytes it is
    given into a one-cell table, a one-shape frame or a raster handle, and
    fails on an empty input or a missing file.  The network and the zip
    decoder are parameters. *)

Module Toy.

Definition Files := list (string * Bytes).
Definition Archive := list (string * Bytes).

Definition abspath (p : string) : string :=
  if Str.startswith p posixpath.sep then p else "/work/" ++ p.

Definition inside (dir p : string) : bool :=
  String.eqb p (abspath dir) || String.prefix (abspath dir ++ "/") p.

Definition exists_ (s : Files) (p : string) : bool :=
  existsb (fun f => inside p (fst f)) s.

Definition lookup_file (s : list (string * Bytes)) (p : string)
  : result Bytes :=
  match find (fun f => String.eqb (fst f) p) s with
  | Some (_, b) => Ok b
  | None => Raise (LibraryError "FileNotFoundError" p)
  end.

Definition open_ (z : Archive) (name : string) : result Bytes :=
  match find (fun f => String.eqb (fst f) name) z with
  | Some (_, b) => Ok b
  | None => Raise (LibraryError "KeyError" name)
  end.

Definition extractall_ (z : Archive) (dir : string) (s : Files)
  : result unit * Files :=
  (Ok tt,
   (map (fun m => (abspath (posixpath.join dir (fst m)), snd m)) z ++ s)%list).

Definition rmtree_ (dir : string) (s : Files) : result unit * Files :=
  if exists_ s dir
  then (Ok tt, filter (fun f => negb (inside dir (fst f))) s)
  else (Raise (LibraryError "FileNotFoundError" dir), s).

Definition bytes_of (s : Files) (src : Source) : result Bytes :=
  match src with
  | Buffer b => Ok b
  | MemberStream _ b => Ok b
  | FilePath p => lookup_file s p
  end.

Definition name_of (src : Source) : string :=
  match src with
  | Buffer _ => "<buffer>"
  | MemberStream n _ => n
  | FilePath p => p
  end.

Definition parse {A} (mk : Bytes -> A) (s : Files) (src : Source)
  : result A :=
  match bytes_of s src with
  | Raise e => Raise e
  | Ok [] => Raise (LibraryError "EmptyDataError" "No data in file")
  | Ok b => Ok (mk b)
  end.

Definition table (col : string) (b : Bytes) : DataFrame :=
  mkDataFrame [(col, [CObj (string_of_list_byte b)])].

Definition shapes (b : Bytes) : GeoDataFrame :=
  mkGeoDataFrame (table "name" b) [mkShape (string_of_list_byte b)]
                 (PyStr "EPSG:4269").

Definition backend (net : string -> result Response)
    (unzip : Bytes -> result Archive) : Backend :=
  {| FS := Files;
     ZipArchive := Archive;
     requests_get := fun url _ => net url;
     zipfile_ZipFile := unzip;
     ZipFile_open := open_;
     ZipFile_extractall := extractall_;
     shutil_rmtree := rmtree_;
     os_path_abspath := abspath;
     os_path_exists := exists_;
     pd_read_csv := fun s src _ => parse (table "text") s src;
     pd_read_excel := fun s src _ => parse (table "sheet") s src;
     gpd_read_file := fun s src _ => parse shapes s src;
     rasterio_open :=
       fun s src _ => parse (mkDatasetReader (name_of src)) s src;
     GeoDataFrame_to_crs :=
       fun gdf target =>
         Ok (mkGeoDataFrame (frame gdf) (geometry gdf) target);
     Point_coerce :=
       fun _ _ => Raise (LibraryError "TypeError" "must be real number")
  |}.

(** A server that answers every request with the given status and
    payload. *)
Definition serve (status : Z) (why : string) (payload : string)
  : string -> result Response :=
  fun url => Ok (mkResponse status why url (list_byte_of_string payload)).

(** A decoder for which the payload [PK] followed by anything is the
    archive with the given members, and nothing else is an archive. *)
Definition archive_of (members : list (string * string))
  : Bytes -> result Archive :=
  fun b =>
    match b with
    | x50 :: x4b :: _ =>
        Ok (map (fun m => (fst m, list_byte_of_string (snd m))) members)
    | _ => Raise (LibraryError "BadZipFile" "File is not a zip file")
    end.

Definition no_archive : Bytes -> result Archive := archive_of [].

(** The world before the call: no file, an empty journal. *)
Definition start (net : string -> result Response)
    (unzip : Bytes -> result Archive) : World (backend net unzip) :=
  mkWorld (B := backend net unzip) [] [].

End Toy.

(* ================================================================== *)
(** ** Observations used in the statements *)

(** The status passes the check of lines 41-42. *)
Definition status_passes (r : Response) : Prop := raise_for_status r = Ok tt.

(** The fetch of lines 40-42 went through with response [r]. *)
Definition fetched (B : Backend) (url : string) (r : Response) : Prop :=
  requests_get B url user_agent = Ok r /\ status_passes r.

(** The library calls made between two worlds. *)
Definition new_events {B} (w w' : World B) : list Event :=
  skipn (List.length (journal w)) (journal w').

(** The world [w] after the events [evs], with the file system [s]. *)
Definition then_ {B} (w : World B) (s : FS B) (evs : list Event) : World B :=
  mkWorld s (journal w ++ evs)%list.

(** From [w] to [w'] the file system is untouched and [shutil.rmtree] is
    not called. *)
Definition quiet {B} (w w' : World B) : Prop :=
  fs w' = fs w
  /\ exists evs, journal w' = (journal w ++ evs)%list
                 /\ existsb is_rmtree evs = false.

(** [sub in s] for strings. *)
Fixpoint occurs (sub s : string) : bool :=
  String.prefix sub s
  || match s with
     | EmptyString => false
     | String _ s' => occurs sub s'
     end.

(** The status and the URL an exception carries, if any. *)
Definition carried_status (e : exn) : option Z :=
  match e with
  | HTTPError _ r => Some (status_code r)
  | _ => None
  end.

Definition message (e : exn) : string :=
  match e with
  | NameError m | UnboundLocalError m | ValueError m
  | NotImplementedError m | HTTPError m _ | LibraryError _ m => m
  end.

Definition carries_url (e : exn) (url : string) : bool :=
  occurs url (message e)
  || match e with
     | HTTPError _ r => String.eqb (resp_url r) url
     | _ => false
     end.

(** The points the helper is to build: x from the longitude column, y
    from the latitude column. *)
Fixpoint lon_lat_points (longs lats : list float) : list Geometry :=
  match longs, lats with
  | lon :: longs', lat :: lats' => mkPoint lon lat :: lon_lat_points longs' lats'
  | _, _ => []
  end.

Definition is_get (e : Event) : bool :=
  match e with
  | EvGet _ _ => true
  | _ => false
  end.

(** The calls a load makes on an archive or on the directory it extracts
    to. *)
Definition is_archive_call (e : Event) : bool :=
  match e with
  | EvZipFile | EvOpenMember _ | EvExtractAll _ | EvRmtree _ => true
  | _ => false
  end.

(** Every library call [m] makes satisfies [P]. *)
Definition emits {B A} (P : Event -> bool) (m : M B A) : Prop :=
  forall w r w',
    m w = (r, w') ->
    exists evs, journal w' = (journal w ++ evs)%list /\ forallb P evs = true.

(** [m] leaves the file system as it found it. *)
Definition keeps_fs {B A} (m : M B A) : Prop :=
  forall w r w', m w = (r, w') -> fs w' = fs w.

Definition result_map {A C} (f : A -> C) (r : result A) : result C :=
  match r with
  | Ok a => Ok (f a)
  | Raise e => Raise e
  end.

(** The format that decides the dispatch of a load: of the URL, or of the
    inner path when the load is zipped ([None] without an inner path). *)
Definition dispatch_format (url : string) (zipped : bool)
    (filepath : option string) : option FormatTag :=
  if zipped then option_map detect_file_type filepath
  else Some (detect_file_type url).

(** The reader call the zipped branch makes for a tabular format on the
    source [src] (lines 72-77 and 83-88): the journal entry and the
    outcome; [None] for the other formats. *)
Definition tabular_read (B : Backend) (ft : FormatTag) (kw : Kwargs)
    (s : FS B) (src : Source) : option (Event * result DataFrame) :=
  match ft with
  | csv =>
      Some (EvRead Rcsv src (low_memory kw),
            pd_read_csv B s src (low_memory kw))
  | xls =>
      Some (EvRead Rexcel src (engine "xlrd" kw),
            pd_read_excel B s src (engine "xlrd" kw))
  | xlsx =>
      Some (EvRead Rexcel src (engine "openpyxl" kw),
            pd_read_excel B s src (engine "openpyxl" kw))
  | _ => None
  end.

(** The names of the columns of a table. *)
Definition column_names (df : DataFrame) : list string :=
  map fst (columns df).

(** All columns of a table have as many values as the table has rows. *)
Definition rectangular (df : DataFrame) : Prop :=
  forall c, In c (columns df) -> List.length (snd c) = nrows df.

(* ================================================================== *)
(** ** The script: the row filters and counts of lines 131-145

    The [print] and [to_csv] statements around them only write out values
    computed here. *)

(** [len(df)] *)
Definition len (df : DataFrame) : Z := Z.of_nat (nrows df).

(** The values at which the boolean series [mask] holds [True]. *)
Fixpoint select {A} (mask : list bool) (values : list A) : list A :=
  match mask, values with
  | b :: mask', v :: values' =>
      if b then v :: select mask' values' else select mask' values'
  | _, _ => []
  end.

(** [df[mask]] for a boolean series [mask]: the rows where it holds
    [True], in every column; a mask that has not one entry per row is
    refused. *)
Definition boolean_index (df : DataFrame) (mask : list bool)
  : result DataFrame :=
  if Nat.eqb (List.length mask) (nrows df)
  then Ok (mkDataFrame
             (map (fun c => (fst c, select mask (snd c))) (columns df)))
  else Raise (ValueError "Item wrong length").

Section Script.

(** What [obj >= x] and [obj < x] give on a cell that is not a float:
    given the operator, the object and [x]. *)
Variable compare_object : string -> string -> float -> result bool.

(** [c >= x] and [c < x] on one cell; on floats the IEEE comparison. *)
Definition cell_ge (x : float) (c : Cell) : result bool :=
  match c with
  | CFloat f => Ok (PrimFloat.leb x f)
  | CObj o => compare_object ">=" o x
  end.

Definition cell_lt (x : float) (c : Cell) : result bool :=
  match c with
  | CFloat f => Ok (PrimFloat.ltb f x)
  | CObj o => compare_object "<" o x
  end.

(** The comparison of a whole column: the boolean series, or the error
    of the first cell that cannot be compared. *)
Fixpoint series (cmp : Cell -> result bool) (values : list Cell)
  : result (list bool) :=
  match values with
  | [] => Ok []
  | c :: rest =>
      match cmp c with
      | Raise e => Raise e
      | Ok b =>
          match series cmp rest with
          | Raise e => Raise e
          | Ok mask => Ok (b :: mask)
          end
      end
  end.

(** [df[cmp(df[col])]], as in [data[data['TDS_mgL'] >= 1000]]. *)
Definition filter_rows (cmp : Cell -> result bool) (df : DataFrame)
    (col : string) : result DataFrame :=
  match getitem df col with
  | Raise e => Raise e
  | Ok values =>
      match series cmp values with
      | Raise e => Raise e
      | Ok mask => boolean_index df mask
      end
  end.

(** The literal [0.1] of line 142: the nearest double. *)
Definition double_0_1 : float := 0x1.999999999999ap-4%float.

(** The variables the script has bound after line 145. *)
Record Report : Type := mkReport {
  num_rows_total : Z;
  num_rows_filtered : Z;
  num_rows_excluded : Z;
  num_rows_filtered2 : Z;
  num_rows_excluded2 : Z;
  filtered_data : DataFrame
}.

(** Lines 131-145 on the table [data]. *)
Definition report (data : DataFrame) : result Report :=
  match filter_rows (cell_ge 1000) data "TDS_mgL" with
  | Raise e => Raise e
  | Ok filtered_data =>
      let num_rows_total := len data in
      let num_rows_filtered := len filtered_data in
      let num_rows_excluded := num_rows_total - num_rows_filtered in
      match filter_rows (cell_lt double_0_1) filtered_data
                        "charge_balance_eq" with
      | Raise e => Raise e
      | Ok filtered_data =>
          let num_rows_filtered2 := len filtered_data in
          let num_rows_excluded2 := num_rows_filtered - num_rows_filtered2 in
          Ok (mkReport num_rows_total num_rows_filtered num_rows_excluded
                       num_rows_filtered2 num_rows_excluded2 filtered_data)
      end
  end.

End Script.

(** The rows the two filters of the script keep, on float columns: those
    whose TDS is at least 1000 and whose charge balance is below 0.1. *)
Fixpoint both_hold (tds cbs : list float) : list bool :=
  match tds, cbs with
  | t :: tds', c :: cbs' =>
      (PrimFloat.leb 1000 t && PrimFloat.ltb c double_0_1)
      :: both_hold tds' cbs'
  | _, _ => []
  end.

(** Case analysis on the tests [ext in [...]]. *)
Ltac split_on_ext e :=
  repeat match goal with
    | |- context [String.eqb e ?s] =>
        destruct (String.eqb_spec e s) as [->|?]
    end.

(** Case analysis on the outcome of each call in a goal. *)
Ltac case_calls :=
  repeat (match goal with
          | |- context [match ?x with _ => _ end] =>
              lazymatch x with
              | context [match _ with _ => _ end] => fail
              | _ => destruct x
              end
          end; cbn [fs journal note]).

(** The journal of a world built from [w] by [note] and [then_]. *)
Ltac journal_of w :=
  unfold new_events, then_, note; cbn [snd fst journal fs];
  rewrite <- ?app_assoc;
  try (rewrite skipn_app, skipn_all, Nat.sub_diag; cbn [skipn]);
  cbn [app].

(** Two worlds written with [note] and [then_] are the same. *)
Ltac same_world :=
  unfold then_, note; cbn [fs journal]; rewrite <- ?app_assoc; reflexivity.

(** The loader down to its library calls. *)
Ltac unfold_loader :=
  unfold after_fetch, load_zipped, read_unzipped, read_in_archive,
    extract_and_load, read_member, read_extracted, read_vector, return_local,
    try_except, bind, ZipFile, open_member, extractall, rmtree, read_csv,
    read_excel, read_file, raster_open, to_crs, get, call, call_fs, lift,
    ret, raise.

(* ================================================================== *)
(** * Properties *)

(** ** Strings *)

Section StringFacts.

Import Str.

Lemma contains_app c a b :
  contains c (a ++ b) = contains c a || contains c b.
Proof.
  induction a as [|x a IH]; simpl; [reflexivity|].
  rewrite IH. apply orb_assoc.
Qed.

(** A string that contains [c] splits at its last occurrence. *)
Lemma split_at_last c s :
  contains c s = true ->
  exists a b, s = a ++ String c b /\ contains c b = false.
Proof.
  induction s as [|x s IH]; simpl; [discriminate|].
  intros H. destruct (contains c s) eqn:Hs.
  - destruct (IH eq_refl) as (a & b & -> & Hb).
    exists (String x a), b. split; [reflexivity|exact Hb].
  - rewrite orb_false_r in H. apply Ascii.eqb_eq in H. subst x.
    exists EmptyString, s. split; [reflexivity|exact Hs].
Qed.

Lemma rfind_from_none i s c :
  contains c s = false -> rfind_from i s c = -1.
Proof.
  revert i. induction s as [|x s IH]; intros i; simpl; [reflexivity|].
  intros H. apply orb_false_elim in H as [Hx Hs].
  rewrite (IH _ Hs), Hx. reflexivity.
Qed.

Lemma rfind_from_last i a b c :
  0 <= i -> contains c b = false ->
  rfind_from i (a ++ String c b) c = i + Z.of_nat (String.length a).
Proof.
  revert i. induction a as [|x a IH]; intros i Hi Hb.
  - simpl. rewrite (rfind_from_none _ _ _ Hb), Ascii.eqb_refl. simpl. lia.
  - cbn [append rfind_from String.length].
    rewrite (IH (i + 1)) by (lia || assumption).
    destruct (0 <=? i + 1 + Z.of_nat (String.length a)) eqn:E; [lia|].
    apply Z.leb_gt in E. lia.
Qed.

Lemma rfind_last a b c :
  contains c b = false ->
  rfind (a ++ String c b) c = Z.of_nat (String.length a).
Proof.
  intros Hb. unfold rfind. rewrite rfind_from_last by (lia || assumption).
  lia.
Qed.

Lemma rfind_none s c : contains c s = false -> rfind s c = -1.
Proof. apply rfind_from_none. Qed.

Lemma slice_from_app a b : slice_from (String.length a) (a ++ b) = b.
Proof.
  induction a as [|x a IH]; simpl; [destruct b; reflexivity|exact IH].
Qed.

Lemma get_app_r a b n :
  String.get (String.length a + n) (a ++ b) = String.get n b.
Proof. induction a as [|x a IH]; simpl; [reflexivity|exact IH]. Qed.

End StringFacts.

(** ** The format detector *)

Section Detector.

Import Str posixpath.

Lemma rfind_from_ge i s c : 0 <= i -> -1 <= rfind_from i s c.
Proof.
  revert i. induction s as [|x s IH]; intros i Hi; simpl; [lia|].
  specialize (IH (i + 1) ltac:(lia)).
  destruct (0 <=? rfind_from (i + 1) s c); [lia|].
  destruct (Ascii.eqb x c); lia.
Qed.

Lemma append_assoc (a b c : string) : ((a ++ b) ++ c = a ++ (b ++ c))%string.
Proof. induction a as [|x a IH]; simpl; [reflexivity|now rewrite IH]. Qed.

Lemma length_append (a b : string) :
  String.length (a ++ b) = (String.length a + String.length b)%nat.
Proof. induction a as [|x a IH]; simpl; [reflexivity|now rewrite IH]. Qed.

(** The loop finds a stem exactly when the scanned part is not all dots. *)
Lemma has_stem_scan pre mid post :
  has_stem (pre ++ mid ++ post) (String.length pre) (String.length mid)
  = negb (all_dots mid).
Proof.
  revert pre. induction mid as [|x mid IH]; intros pre; [reflexivity|].
  cbn [String.length has_stem all_dots].
  replace (String.length pre) with (String.length pre + 0)%nat at 1 by lia.
  rewrite get_app_r. cbn [append String.get].
  destruct (Ascii.eqb x extsep) eqn:Ex; [|reflexivity].
  specialize (IH (pre ++ String x EmptyString)%string).
  rewrite append_assoc, length_append in IH. cbn [append String.length] in IH.
  replace (String.length pre + 1)%nat with (S (String.length pre)) in IH by lia.
  rewrite IH. reflexivity.
Qed.

Lemma basename_plain s : contains sep s = false -> basename s = s.
Proof.
  destruct s as [|x s]; simpl; [reflexivity|].
  intros H. apply orb_false_elim in H as [Hx Hs]. now rewrite Hs, Hx.
Qed.

Lemma basename_last a b :
  contains sep b = false -> basename (a ++ String sep b) = b.
Proof.
  intros Hb. induction a as [|x a IH]; simpl.
  - now rewrite Hb.
  - rewrite contains_app. simpl. rewrite orb_true_r. exact IH.
Qed.

Lemma before_final_dot_none s :
  contains extsep s = false -> before_final_dot s = None.
Proof.
  induction s as [|x s IH]; simpl; [reflexivity|].
  intros H. apply orb_false_elim in H as [Hx Hs]. now rewrite (IH Hs), Hx.
Qed.

Lemma before_final_dot_last a b :
  contains extsep b = false ->
  before_final_dot (a ++ String extsep b) = Some a.
Proof.
  intros Hb. induction a as [|x a IH]; simpl.
  - now rewrite (before_final_dot_none _ Hb).
  - now rewrite IH.
Qed.

Lemma ext_after_final_dot_none s :
  contains extsep s = false -> ext_after_final_dot s = EmptyString.
Proof.
  destruct s as [|x s]; simpl; [reflexivity|].
  intros H. apply orb_false_elim in H as [Hx Hs]. now rewrite Hs, Hx.
Qed.

Lemma ext_after_final_dot_last a b :
  contains extsep b = false ->
  ext_after_final_dot (a ++ String extsep b) = String extsep b.
Proof.
  intros Hb. induction a as [|x a IH]; simpl.
  - now rewrite Hb.
  - rewrite contains_app. simpl. rewrite orb_true_r. exact IH.
Qed.

(** The extension [splitext] returns, against the suffix after the
    final dot. *)
Lemma splitext_ext s :
  snd (splitext s)
  = if dotfile s then EmptyString
    else if contains sep (ext_after_final_dot s) then EmptyString
    else ext_after_final_dot s.
Proof.
  unfold splitext, dotfile.
  destruct (contains extsep s) eqn:Hdot.
  - destruct (split_at_last _ _ Hdot) as (a & b & -> & Hb).
    rewrite (rfind_last a b extsep Hb), (ext_after_final_dot_last a b Hb).
    destruct (contains sep b) eqn:Hsb.
    + (* the last dot is not in the last component *)
      destruct (split_at_last _ _ Hsb) as (b1 & b2 & -> & Hb2).
      replace (a ++ String extsep (b1 ++ String sep b2))%string
        with ((a ++ String extsep b1) ++ String sep b2)%string
        by (rewrite append_assoc; reflexivity).
      rewrite (rfind_last _ b2 sep Hb2), (basename_last _ b2 Hb2).
      rewrite length_append. cbn [String.length].
      rewrite contains_app in Hb. apply orb_false_elim in Hb as [_ Hb].
      cbn [contains] in Hb. apply orb_false_elim in Hb as [_ Hb].
      rewrite (before_final_dot_none _ Hb).
      destruct (_ <? _) eqn:E; [apply Z.ltb_lt in E; lia|].
      cbn [andb snd contains]. rewrite contains_app. cbn [contains].
      rewrite Ascii.eqb_refl, !orb_true_r. reflexivity.
    + assert (Hse : contains sep (String extsep b) = false)
        by (cbn [contains]; rewrite Hsb; reflexivity).
      rewrite Hse.
      destruct (contains sep a) eqn:Hsa.
      * (* a directory, then the file name *)
        destruct (split_at_last _ _ Hsa) as (a1 & a2 & -> & Ha2).
        replace ((a1 ++ String sep a2) ++ String extsep b)%string
          with (a1 ++ String sep (a2 ++ String extsep b))%string
          by (rewrite append_assoc; reflexivity).
        assert (Hrest : contains sep (a2 ++ String extsep b) = false)
          by (rewrite contains_app, Ha2; exact Hse).
        rewrite (rfind_last a1 _ sep Hrest), (basename_last a1 _ Hrest).
        rewrite (before_final_dot_last a2 b Hb).
        rewrite length_append. cbn [String.length].
        replace (Z.to_nat (Z.of_nat (String.length a1) + 1))
          with (String.length (a1 ++ String sep EmptyString))
          by (rewrite length_append; simpl; lia).
        replace (Z.to_nat (Z.of_nat (String.length a1 + S (String.length a2))
                           - (Z.of_nat (String.length a1) + 1)))
          with (String.length a2) by lia.
        replace (a1 ++ String sep (a2 ++ String extsep b))%string
          with ((a1 ++ String sep EmptyString) ++ a2 ++ String extsep b)%string
          by (rewrite append_assoc; reflexivity).
        rewrite has_stem_scan.
        destruct (_ <? _) eqn:E; [|apply Z.ltb_ge in E; lia].
        destruct (all_dots a2); cbn [andb negb snd]; [reflexivity|].
        rewrite Nat2Z.id.
        replace ((a1 ++ String sep EmptyString) ++ a2 ++ String extsep b)%string
          with ((a1 ++ String sep a2) ++ String extsep b)%string
          by (rewrite !append_assoc; reflexivity).
        replace (String.length a1 + S (String.length a2))%nat
          with (String.length (a1 ++ String sep a2))
          by (rewrite length_append; reflexivity).
        apply slice_from_app.
      * (* no directory *)
        assert (Hall : contains sep (a ++ String extsep b) = false)
          by (rewrite contains_app, Hsa; exact Hse).
        rewrite (rfind_none _ sep Hall), (basename_plain _ Hall).
        rewrite (before_final_dot_last a b Hb).
        change (Z.to_nat (-1 + 1)) with (String.length EmptyString).
        replace (Z.to_nat (Z.of_nat (String.length a) - (-1 + 1)))
          with (String.length a) by lia.
        change (a ++ String extsep b)%string
          with (EmptyString ++ a ++ String extsep b)%string at 1.
        rewrite has_stem_scan.
        destruct (_ <? _) eqn:E; [|apply Z.ltb_ge in E; lia].
        destruct (all_dots a); cbn [andb negb snd]; [reflexivity|].
        rewrite Nat2Z.id. apply slice_from_app.
  - (* no dot at all *)
    rewrite (rfind_none _ extsep Hdot), (ext_after_final_dot_none _ Hdot).
    pose proof (rfind_from_ge 0 s sep ltac:(lia)) as Hge.
    fold (rfind s sep) in Hge.
    destruct (_ <? _) eqn:E; [apply Z.ltb_lt in E; lia|].
    cbn [andb snd contains].
    destruct (match before_final_dot (basename s) with
              | Some stem => all_dots stem | None => false end);
      reflexivity.
Qed.

End Detector.

(** The table of [detect_file_type], extension by extension. *)
Lemma tag_of_ext_table e :
  (tag_of_ext e = csv <-> e = ".csv")
  /\ (tag_of_ext e = txt <-> e = ".txt")
  /\ (tag_of_ext e = xls <-> e = ".xls")
  /\ (tag_of_ext e = xlsx <-> e = ".xlsx")
  /\ (tag_of_ext e = vector <-> In e vector_exts)
  /\ (tag_of_ext e = raster <-> In e raster_exts)
  /\ (tag_of_ext e = unknown <-> ~ In e known_exts).
Proof.
  unfold known_exts. unfold tag_of_ext, ext_in, vector_exts, raster_exts.
  cbn [app In existsb].
  split_on_ext e; cbn [orb];
    repeat split; intros; try discriminate; try reflexivity;
    try (exfalso; intuition congruence);
    try solve [intuition (discriminate || congruence)].
Qed.

Lemma tag_of_ext_sep e :
  Str.contains posixpath.sep e = true -> tag_of_ext e = unknown.
Proof.
  intros H. apply (tag_of_ext_table e).
  unfold known_exts. unfold vector_exts, raster_exts.
  cbn [app In]. intros Hin.
  repeat (destruct Hin as [<-|Hin]; [discriminate H|]). exact Hin.
Qed.

Example splitext_last_component :
  posixpath.splitext "a.b/c.tar.gz" = ("a.b/c.tar", ".gz").
Proof. reflexivity. Qed.

Example splitext_leading_dots : posixpath.splitext "..tif" = ("..tif", "").
Proof. reflexivity. Qed.

Example detect_major_ions : detect_file_type "Major_Ions.csv" = csv.
Proof. reflexivity. Qed.

Example detect_upper_case : detect_file_type "http://h/Wells.GeoJSON" = vector.
Proof. reflexivity. Qed.

Example detect_data_url : detect_file_type data_url = unknown.
Proof. reflexivity. Qed.

(** C3 (as the specification words it, refuted): on the path of a dot
    file the detector answers [unknown], where splitting on the final dot
    gives the extension [.csv] and so the tag [csv]. *)
Lemma detect_file_type_dotfile_differs :
  detect_format_spec "https://host/data/.csv" = csv
  /\ detect_file_type "https://host/data/.csv" = unknown.
Proof. split; reflexivity. Qed.

(** C3 (amended): [detect_file_type] is total and lower-cases the path;
    the extension it classifies is the one [os.path.splitext] gives, that
    is the suffix from the final dot on, except that a dot file (nothing
    but dots before the final dot of the last component) has no extension;
    the tag is then [csv] for [.csv], [txt] for [.txt], [xls] for [.xls],
    [xlsx] for [.xlsx], [vector] for [.shp], [.geojson], [.gpkg], [.json],
    [.kml], [raster] for [.tif], [.tiff], and [unknown] for anything else. *)
Theorem detect_file_type_table (path : string) :
  let ext := snd (posixpath.splitext (Str.lower path)) in
  detect_file_type path
  = (if dotfile (Str.lower path) then unknown else detect_format_spec path)
  /\ (detect_file_type path = csv <-> ext = ".csv")
  /\ (detect_file_type path = txt <-> ext = ".txt")
  /\ (detect_file_type path = xls <-> ext = ".xls")
  /\ (detect_file_type path = xlsx <-> ext = ".xlsx")
  /\ (detect_file_type path = vector <-> In ext vector_exts)
  /\ (detect_file_type path = raster <-> In ext raster_exts)
  /\ (detect_file_type path = unknown <-> ~ In ext known_exts).
Proof.
  intros ext. split; [|exact (tag_of_ext_table ext)].
  unfold detect_file_type, detect_format_spec. rewrite splitext_ext.
  destruct (dotfile (Str.lower path)); [reflexivity|].
  destruct (Str.contains _ _) eqn:E; [|reflexivity].
  now rewrite (tag_of_ext_sep _ E).
Qed.

(** ** The loader: how a call unfolds *)

Section LoaderFacts.

Context {B : Backend}.
Implicit Types (g : Globals) (w : World B) (kw : Kwargs).

Lemma bind_bind {A C D} (m : M B A) (k : A -> M B C) (h : C -> M B D) w :
  bind (bind m k) h w = bind m (fun a => bind (k a) h) w.
Proof. unfold bind. destruct (m w) as [[a|e] w1]; reflexivity. Qed.

Lemma bind_run {A C} (m : M B A) (k : A -> M B C) w res w1 :
  m w = (res, w1) ->
  bind m k w = match res with
               | Ok a => k a w1
               | Raise e => (Raise e, w1)
               end.
Proof. intros H. unfold bind. rewrite H. reflexivity. Qed.

Lemma new_events_note w e : new_events w (note e w) = [e].
Proof.
  unfold new_events, note. cbn [journal].
  induction (journal w) as [|x l IH]; [reflexivity|exact IH].
Qed.

Lemma status_200_passes r : status_code r = 200 -> status_passes r.
Proof.
  unfold status_passes, raise_for_status, http_error_msg. intros ->.
  reflexivity.
Qed.

Lemma status_error_raises r :
  400 <= status_code r < 600 ->
  exists msg, http_error_msg r = Some msg
              /\ raise_for_status r = Raise (HTTPError msg r).
Proof.
  intros H. unfold raise_for_status, http_error_msg.
  destruct ((400 <=? status_code r) && (status_code r <? 500)) eqn:E1.
  - eexists. split; reflexivity.
  - destruct ((500 <=? status_code r) && (status_code r <? 600)) eqn:E2.
    + eexists. split; reflexivity.
    + exfalso. apply andb_false_iff in E1, E2.
      rewrite !Z.leb_gt, !Z.ltb_ge in *. lia.
Qed.

Lemma load_fetched g url zipped filepath kw w r :
  fetched B url r ->
  load_data_from_url g url zipped filepath kw w
  = after_fetch g url zipped filepath kw r (note (EvGet url user_agent) w).
Proof.
  intros [Hget Hst]. unfold load_data_from_url, after_fetch.
  unfold bind at 1. unfold get, call. rewrite Hget.
  unfold bind at 1.
  destruct (negb (status_code r =? 200)); unfold lift, ret.
  - rewrite Hst. reflexivity.
  - reflexivity.
Qed.

Lemma load_http_error g url zipped filepath kw w r e :
  requests_get B url user_agent = Ok r ->
  raise_for_status r = Raise e ->
  load_data_from_url g url zipped filepath kw w
  = (Raise e, note (EvGet url user_agent) w).
Proof.
  intros Hget Hst. unfold load_data_from_url.
  unfold bind at 1. unfold get, call. rewrite Hget.
  unfold bind at 1.
  destruct (status_code r =? 200) eqn:E.
  - apply Z.eqb_eq in E. rewrite (status_200_passes r E) in Hst.
    discriminate.
  - cbn [negb]. unfold lift. rewrite Hst. reflexivity.
Qed.

Lemma load_fetch_raises g url zipped filepath kw w e :
  requests_get B url user_agent = Raise e ->
  load_data_from_url g url zipped filepath kw w
  = (Raise e, note (EvGet url user_agent) w).
Proof.
  intros Hget. unfold load_data_from_url.
  unfold bind at 1. unfold get, call. rewrite Hget. reflexivity.
Qed.

(** A call that returns has fetched, and its body has returned. *)
Lemma load_returns_inv g url zipped filepath kw w d w' :
  load_data_from_url g url zipped filepath kw w = (Ok d, w') ->
  exists r, fetched B url r
            /\ after_fetch g url zipped filepath kw r
                 (note (EvGet url user_agent) w) = (Ok d, w').
Proof.
  intros H. destruct (requests_get B url user_agent) as [r|e] eqn:Hget.
  - destruct (raise_for_status r) as [[]|e] eqn:Hst.
    + exists r. assert (F : fetched B url r) by (split; assumption).
      split; [exact F|]. rewrite <- (load_fetched _ _ _ _ _ _ _ F). exact H.
    + rewrite (load_http_error _ _ _ _ _ _ _ _ Hget Hst) in H. discriminate.
  - rewrite (load_fetch_raises _ _ _ _ _ _ _ Hget) in H. discriminate.
Qed.

Lemma load_zipped_opened g payload filepath kw w z :
  zipfile_ZipFile B payload = Ok z ->
  load_zipped g payload (Some filepath) kw w
  = try_except
      (read_in_archive z filepath (detect_file_type filepath) kw)
      (fun _ => extract_and_load g z filepath (detect_file_type filepath) kw)
      (note EvZipFile w).
Proof.
  intros Hz. unfold load_zipped, bind at 1, ZipFile, call. rewrite Hz.
  reflexivity.
Qed.

End LoaderFacts.

(** The call the script itself makes (line 125), on an archive that holds
    the member: the table is read from the open member, nothing is
    extracted. *)
Example script_call :
  let B := Toy.backend (Toy.serve 200 "OK" "PK..")
             (Toy.archive_of [("Major_Ions.csv", "TDS_mgL")]) in
  load_data_from_url (B := B) module_globals data_url true
    (Some "Major_Ions.csv") [] (Toy.start _ _)
  = (Ok (Tabular (Toy.table "text" (list_byte_of_string "TDS_mgL"))),
     mkWorld (B := B) []
       [EvGet data_url user_agent; EvZipFile; EvOpenMember "Major_Ions.csv";
        EvRead Rcsv
          (MemberStream "Major_Ions.csv" (list_byte_of_string "TDS_mgL"))
          [("low_memory", PyBool false)]]).
Proof. reflexivity. Qed.

(** ** The fetch *)

(** C5 (as stated, refuted): a response with status 300 is not a 2xx
    response, yet no error is raised: its body goes to the CSV reader and
    the table comes back. *)
Lemma status_300_is_parsed :
  let B := Toy.backend (Toy.serve 300 "Multiple Choices" "a,b") Toy.no_archive in
  requests_get B "http://h/a.csv" user_agent
  = Ok (mkResponse 300 "Multiple Choices" "http://h/a.csv"
                   (list_byte_of_string "a,b"))
  /\ load_data_from_url (B := B) module_globals "http://h/a.csv" false None []
       (Toy.start _ _)
     = (Ok (Tabular (Toy.table "text" (list_byte_of_string "a,b"))),
        mkWorld (B := B) []
          [EvGet "http://h/a.csv" user_agent;
           EvRead Rcsv (Buffer (list_byte_of_string "a,b"))
                  [("low_memory", PyBool false)]]).
Proof. split; reflexivity. Qed.

(** C5 (amended): when the response has a client or server error status
    (400 to 599), [load_data_from_url] fails with the [HTTPError] of
    requests, which carries the response and so its status code and URL;
    the journal then holds the GET alone: nothing was parsed, and the file
    system is untouched.  (HTTP 404 is the instance checked below.) *)
Theorem http_error_status_raises {B : Backend} (g : Globals) (url : string)
    (zipped : bool) (filepath : option string) (kwargs : Kwargs)
    (w : World B) (r : Response) :
  requests_get B url user_agent = Ok r ->
  400 <= status_code r < 600 ->
  exists e w',
    load_data_from_url g url zipped filepath kwargs w = (Raise e, w')
    /\ (exists msg, e = HTTPError msg r)
    /\ carried_status e = Some (status_code r)
    /\ carries_url e (resp_url r) = true
    /\ new_events w w' = [EvGet url user_agent]
    /\ fs w' = fs w.
Proof.
  intros Hget Hst.
  destruct (status_error_raises r Hst) as (msg & _ & Hraise).
  exists (HTTPError msg r), (note (EvGet url user_agent) w).
  split; [exact (load_http_error _ _ _ _ _ _ _ _ Hget Hraise)|].
  split; [exists msg; reflexivity|].
  split; [reflexivity|].
  split; [unfold carries_url; rewrite String.eqb_refl; apply orb_true_r|].
  split; [apply new_events_note|reflexivity].
Qed.

Lemma http_error_status_raises_witness :
  exists e w',
    load_data_from_url
      (B := Toy.backend (Toy.serve 404 "Not Found" "") Toy.no_archive)
      module_globals "http://h/a.csv" false None [] (Toy.start _ _)
    = (Raise e, w')
    /\ carried_status e = Some 404
    /\ carries_url e "http://h/a.csv" = true.
Proof.
  destruct (http_error_status_raises
              (B := Toy.backend (Toy.serve 404 "Not Found" "") Toy.no_archive)
              module_globals "http://h/a.csv" false None [] (Toy.start _ _)
              (mkResponse 404 "Not Found" "http://h/a.csv" [])
              eq_refl ltac:(simpl; lia))
    as (e & w' & Hload & _ & Hs & Hu & _).
  exists e, w'. split; [exact Hload|]. split; [exact Hs|exact Hu].
Defined.

(** ** The zipped branch without an inner path *)

(** C6 (as stated, refuted): a zipped load without [filepath] whose
    payload is not a zip archive fails with the error of [ZipFile], not
    with the [ValueError] that asks for [filepath]: line 65 opens the
    archive before line 66 looks at [filepath]. *)
Lemma missing_filepath_on_bad_archive :
  let B := Toy.backend (Toy.serve 200 "OK" "<html>") Toy.no_archive in
  load_data_from_url (B := B) module_globals "http://h/a.zip" true None []
    (Toy.start _ _)
  = (Raise (LibraryError "BadZipFile" "File is not a zip file"),
     mkWorld (B := B) [] [EvGet "http://h/a.zip" user_agent; EvZipFile])
  /\ fst (load_data_from_url (B := B) module_globals "http://h/a.zip" true
            None [] (Toy.start _ _))
     <> Raise (ValueError msg_filepath).
Proof. split; [reflexivity|discriminate]. Qed.

(** C6 (amended): a zipped load without [filepath] never returns a
    structure; once the payload is fetched and opens as an archive, it
    fails with the [ValueError] that asks for [filepath], before any
    member is opened, read or extracted. *)
Theorem missing_filepath_raises {B : Backend} (g : Globals) (url : string)
    (kwargs : Kwargs) (w : World B) :
  is_ok (fst (load_data_from_url g url true None kwargs w)) = false
  /\ forall r z,
       fetched B url r ->
       zipfile_ZipFile B (content r) = Ok z ->
       load_data_from_url g url true None kwargs w
       = (Raise (ValueError msg_filepath),
          note EvZipFile (note (EvGet url user_agent) w)).
Proof.
  split.
  - destruct (load_data_from_url g url true None kwargs w) as [[d|e] w'] eqn:H;
      [|reflexivity].
    exfalso. apply load_returns_inv in H as (r & _ & H).
    unfold after_fetch, bind, load_zipped, bind, ZipFile, call, raise in H.
    cbn [negb] in H.
    destruct (zipfile_ZipFile B (content r)); discriminate.
  - intros r z F Hz. rewrite (load_fetched _ _ _ _ _ _ _ F).
    unfold after_fetch, bind, load_zipped, bind, ZipFile, call, raise.
    cbn [negb]. rewrite Hz. reflexivity.
Qed.

Lemma missing_filepath_raises_witness :
  load_data_from_url
    (B := Toy.backend (Toy.serve 200 "OK" "PK..") Toy.no_archive)
    module_globals "http://h/a.zip" true None [] (Toy.start _ _)
  = (Raise (ValueError "Must specify 'filepath' within ZIP archive."),
     mkWorld (B := Toy.backend (Toy.serve 200 "OK" "PK..") Toy.no_archive) []
       [EvGet "http://h/a.zip" user_agent; EvZipFile]).
Proof.
  refine (proj2 (missing_filepath_raises
                   (B := Toy.backend (Toy.serve 200 "OK" "PK..") Toy.no_archive)
                   module_globals "http://h/a.zip" [] (Toy.start _ _))
                (mkResponse 200 "OK" "http://h/a.zip"
                            (list_byte_of_string "PK.."))
                [] _ eq_refl).
  split; reflexivity.
Defined.

(** ** The fallback on CSV for an unknown extension *)

(** C7 (as stated, refuted): the error raised when the CSV fallback fails
    does not carry the URL: its only content is a fixed message, in which
    the URL does not occur. *)
Lemma check_url_error_omits_url :
  exists e w',
    load_data_from_url
      (B := Toy.backend (Toy.serve 200 "OK" "") Toy.no_archive)
      module_globals "http://h/a.dat" false None [] (Toy.start _ _)
    = (Raise e, w')
    /\ carries_url e "http://h/a.dat" = false.
Proof. eexists. eexists. split; reflexivity. Qed.

(** C7 (amended): a non-zipped load whose URL has an unknown extension
    first gives the payload to the CSV reader; it returns the table when
    the reader returns one, and if and only if the reader raises it fails
    with a [ValueError] whose fixed message asks to check the URL (the
    error does not hold the URL). *)
Theorem unknown_format_falls_back_on_csv {B : Backend} (g : Globals)
    (url : string) (filepath : option string) (kwargs : Kwargs)
    (w : World B) (r : Response) :
  fetched B url r ->
  detect_file_type url = unknown ->
  load_data_from_url g url false filepath kwargs w
  = (match pd_read_csv B (fs w) (Buffer (content r)) (low_memory kwargs) with
     | Ok df => Ok (Tabular df)
     | Raise _ => Raise (ValueError msg_check_url)
     end,
     note (EvRead Rcsv (Buffer (content r)) (low_memory kwargs))
          (note (EvGet url user_agent) w)).
Proof.
  intros F Hu. rewrite (load_fetched _ _ _ _ _ _ _ F).
  unfold after_fetch. cbn [negb]. rewrite Hu.
  unfold bind, read_unzipped, try_except, bind, read_csv, call, ret, raise,
    return_local.
  cbn [fs note].
  destruct (pd_read_csv B (fs w) (Buffer (content r)) (low_memory kwargs));
    reflexivity.
Qed.

Lemma unknown_format_falls_back_on_csv_witness :
  fst (load_data_from_url
         (B := Toy.backend (Toy.serve 200 "OK" "x;y") Toy.no_archive)
         module_globals data_url false None [] (Toy.start _ _))
  = Ok (Tabular (Toy.table "text" (list_byte_of_string "x;y"))).
Proof.
  rewrite (unknown_format_falls_back_on_csv
             (B := Toy.backend (Toy.serve 200 "OK" "x;y") Toy.no_archive)
             module_globals data_url None [] (Toy.start _ _)
             (mkResponse 200 "OK" data_url (list_byte_of_string "x;y"))
             (conj eq_refl eq_refl) eq_refl).
  reflexivity.
Defined.

(** ** The zipped branch *)

Section ZippedFacts.

Context {B : Backend}.
Implicit Types (g : Globals) (w : World B) (kw : Kwargs).

Lemma quiet_refl w : quiet w w.
Proof.
  split; [reflexivity|]. exists []. now rewrite app_nil_r.
Qed.

Lemma quiet_trans w1 w2 w3 : quiet w1 w2 -> quiet w2 w3 -> quiet w1 w3.
Proof.
  intros [F1 (e1 & J1 & Q1)] [F2 (e2 & J2 & Q2)]. split; [congruence|].
  exists (e1 ++ e2)%list. split.
  - rewrite J2, J1. now rewrite app_assoc.
  - rewrite existsb_app, Q1, Q2. reflexivity.
Qed.

Lemma quiet_note w e : is_rmtree e = false -> quiet w (note e w).
Proof.
  intros He. split; [reflexivity|]. exists [e]. split; [reflexivity|].
  cbn. now rewrite He.
Qed.

Lemma quiet_call {A} e (f : FS B -> result A) w res w' :
  is_rmtree e = false -> call e f w = (res, w') -> quiet w w'.
Proof.
  intros He H. unfold call in H. injection H as _ <-. now apply quiet_note.
Qed.

Lemma quiet_bind {A C} (m : M B A) (k : A -> M B C) w res w' :
  (forall r1 w1, m w = (r1, w1) -> quiet w w1) ->
  (forall a w1 r2 w2, k a w1 = (r2, w2) -> quiet w1 w2) ->
  bind m k w = (res, w') -> quiet w w'.
Proof.
  intros Hm Hk H. unfold bind in H.
  destruct (m w) as [[a|e] w1] eqn:E.
  - eapply quiet_trans; [exact (Hm _ _ eq_refl)|exact (Hk _ _ _ _ H)].
  - injection H as _ <-. exact (Hm _ _ eq_refl).
Qed.

Lemma quiet_ret {A} (a : A) w res w' : ret a w = (res, w') -> quiet w w'.
Proof. intros H. injection H as _ <-. apply quiet_refl. Qed.

Lemma quiet_raise {A} e w (res : result A) w' :
  raise e w = (res, w') -> quiet w w'.
Proof. intros H. injection H as _ <-. apply quiet_refl. Qed.

Lemma quiet_lift {A} (r : result A) w res w' :
  lift r w = (res, w') -> quiet w w'.
Proof. intros H. injection H as _ <-. apply quiet_refl. Qed.

Ltac quiet_step :=
  match goal with
  | H : bind _ _ _ = _ |- quiet _ _ =>
      apply (quiet_bind _ _ _ _ _) with (3 := H); clear H; intros;
      cbv beta in *
  | H : call _ _ _ = _ |- quiet _ _ =>
      refine (quiet_call _ _ _ _ _ _ H); reflexivity
  | H : ret _ _ = _ |- quiet _ _ => exact (quiet_ret _ _ _ _ H)
  | H : raise _ _ = _ |- quiet _ _ => exact (quiet_raise _ _ _ _ H)
  | H : lift _ _ = _ |- quiet _ _ => exact (quiet_lift _ _ _ _ H)
  end.

Lemma read_vector_quiet g src kw w res w' :
  read_vector g src kw w = (res, w') -> quiet w w'.
Proof.
  unfold read_vector, read_file, to_crs. intros H. repeat quiet_step.
Qed.

(** The readers of the [except] block leave the file system alone and
    do not remove anything. *)
Lemma read_extracted_quiet g ft src kw w res w' :
  read_extracted g ft src kw w = (res, w') -> quiet w w'.
Proof.
  unfold read_extracted, read_csv, read_excel, raster_open.
  intros H. destruct ft; repeat quiet_step.
  all: eapply read_vector_quiet; eassumption.
Qed.

(** So does the [try] block. *)
Lemma read_in_archive_quiet z fp ft kw w res w' :
  read_in_archive z fp ft kw w = (res, w') -> quiet w w'.
Proof.
  unfold read_in_archive, open_member, read_member, read_csv, read_excel.
  intros H. quiet_step; [quiet_step|].
  destruct ft; repeat quiet_step.
Qed.

End ZippedFacts.

Section Fallback.

Context {B : Backend}.
Implicit Types (g : Globals) (w : World B) (kw : Kwargs).

(** For a vector or a raster the [try] block opens the member and
    raises without reading it. *)
Lemma read_in_archive_extraction z fp ft kw w :
  ft = vector \/ ft = raster ->
  exists e,
    read_in_archive z fp ft kw w = (Raise e, note (EvOpenMember fp) w).
Proof.
  intros Hft. unfold read_in_archive, bind, open_member, call.
  destruct (ZipFile_open B z fp) as [file|e].
  - exists (NotImplementedError msg_extraction).
    destruct Hft as [-> | ->]; reflexivity.
  - exists e. reflexivity.
Qed.

(** On a vector or a raster the [except] block is the reader of the
    branch [not zipped], run on the extracted path between [extractall]
    and [rmtree]. *)
Lemma fallback_reads_as_unzipped g z fp ft kw w :
  ft = vector \/ ft = raster ->
  bind (extract_and_load g z fp ft kw) (return_local "data") w
  = bind (extractall z scratch)
      (fun _ =>
         bind (read_unzipped g ft (FilePath (full_path_of B fp)) kw)
           (fun d => bind (rmtree scratch) (fun _ => ret d))) w.
Proof.
  intros Hft. set (src := FilePath (full_path_of B fp)).
  destruct Hft as [-> | ->];
    unfold extract_and_load, read_extracted, read_unzipped, bind, ret,
      return_local; fold src;
    case_calls; reflexivity.
Qed.

(** The [except] block runs from the world in which the [try] block
    raised. *)
Lemma load_falls_back g url fp kw w r z e w1 :
  fetched B url r ->
  zipfile_ZipFile B (content r) = Ok z ->
  read_in_archive z fp (detect_file_type fp) kw
    (note EvZipFile (note (EvGet url user_agent) w)) = (Raise e, w1) ->
  load_data_from_url g url true (Some fp) kw w
  = bind (extract_and_load g z fp (detect_file_type fp) kw)
         (return_local "data") w1.
Proof.
  intros F Hz Htry. rewrite (load_fetched _ _ _ _ _ _ _ F).
  unfold after_fetch. cbn [negb]. unfold bind at 1.
  rewrite (load_zipped_opened _ _ _ _ _ _ Hz). unfold try_except.
  rewrite Htry. reflexivity.
Qed.

(** When the [try] block returns, its value is the value of the local
    [data]: nothing is extracted. *)
Lemma load_reads_in_archive g url fp kw w r z v w1 :
  fetched B url r ->
  zipfile_ZipFile B (content r) = Ok z ->
  read_in_archive z fp (detect_file_type fp) kw
    (note EvZipFile (note (EvGet url user_agent) w)) = (Ok v, w1) ->
  load_data_from_url g url true (Some fp) kw w
  = return_local "data" v w1.
Proof.
  intros F Hz Htry. rewrite (load_fetched _ _ _ _ _ _ _ F).
  unfold after_fetch. cbn [negb]. unfold bind at 1.
  rewrite (load_zipped_opened _ _ _ _ _ _ Hz). unfold try_except.
  rewrite Htry. reflexivity.
Qed.

End Fallback.

(** C1: in a zipped load of a vector or raster member, the member is
    opened but never read: the loader extracts the archive, runs the
    reader of the non-zipped branch on the resolved extracted path,
    removes the scratch directory and returns what that reader returned
    (and raises what it raised); and whenever the [try] block raises, for
    any format, the loader goes on with the same [except] block. *)
Theorem vector_raster_load_from_extraction {B : Backend} (g : Globals)
    (url fp : string) (kwargs : Kwargs) (w : World B) (r : Response)
    (z : ZipArchive B) :
  fetched B url r ->
  zipfile_ZipFile B (content r) = Ok z ->
  let ft := detect_file_type fp in
  let opened := note EvZipFile (note (EvGet url user_agent) w) in
  (ft = vector \/ ft = raster ->
   load_data_from_url g url true (Some fp) kwargs w
   = (extractall z scratch ;;
      d <- read_unzipped g ft (FilePath (full_path_of B fp)) kwargs ;;
      rmtree scratch ;;
      ret d)%py (note (EvOpenMember fp) opened)
   /\ existsb is_member_read
        (new_events w
           (snd (load_data_from_url g url true (Some fp) kwargs w)))
      = false)
  /\ (forall e w1,
        read_in_archive z fp ft kwargs opened = (Raise e, w1) ->
        load_data_from_url g url true (Some fp) kwargs w
        = (data <- extract_and_load g z fp ft kwargs ;;
           return_local "data" data)%py w1).
Proof.
  intros F Hz ft opened. split.
  - intros Hft.
    destruct (read_in_archive_extraction z fp ft kwargs opened Hft)
      as [e Htry].
    assert (Heq : load_data_from_url g url true (Some fp) kwargs w
                  = (extractall z scratch ;;
                     d <- read_unzipped g ft (FilePath (full_path_of B fp))
                            kwargs ;;
                     rmtree scratch ;;
                     ret d)%py (note (EvOpenMember fp) opened)).
    { rewrite (load_falls_back _ _ _ _ _ _ _ _ _ F Hz Htry).
      apply fallback_reads_as_unzipped. exact Hft. }
    split; [exact Heq|]. rewrite Heq. subst opened. clear Heq Htry.
    set (src := FilePath (full_path_of B fp)).
    destruct Hft as [-> | ->];
      unfold bind, extractall, rmtree, call_fs, read_unzipped, bind,
        read_vector, bind, read_file, raster_open, to_crs, call, lift, ret;
      cbn [fs journal note]; case_calls; journal_of w; reflexivity.
  - intros e w1 Htry. exact (load_falls_back _ _ _ _ _ _ _ _ _ F Hz Htry).
Qed.

Lemma vector_raster_load_from_extraction_witness :
  let B := Toy.backend (Toy.serve 200 "OK" "PK..")
             (Toy.archive_of [("d/a.tif", "II*"); ("d/a.tfw", "1.0")]) in
  load_data_from_url (B := B) module_globals "http://h/a.zip" true
    (Some "d/a.tif") [] (Toy.start _ _)
  = (Ok (Raster (mkDatasetReader "/work/extracted_data/d/a.tif"
                                 (list_byte_of_string "II*"))),
     mkWorld (B := B) []
       [EvGet "http://h/a.zip" user_agent; EvZipFile; EvOpenMember "d/a.tif";
        EvExtractAll "extracted_data";
        EvRead Rraster (FilePath "/work/extracted_data/d/a.tif") [];
        EvRmtree "extracted_data"]).
Proof.
  intros B.
  destruct (vector_raster_load_from_extraction (B := B) module_globals
              "http://h/a.zip" "d/a.tif" [] (Toy.start _ _)
              (mkResponse 200 "OK" "http://h/a.zip"
                          (list_byte_of_string "PK.."))
              (map (fun m => (fst m, list_byte_of_string (snd m)))
                   [("d/a.tif", "II*"); ("d/a.tfw", "1.0")])
              (conj eq_refl eq_refl) eq_refl) as [Hload _].
  destruct (Hload (or_intror eq_refl)) as [Heq _].
  rewrite Heq. reflexivity.
Defined.

(** ** The scratch directory *)

Lemma toy_rmtree_removes net unzip : rmtree_removes (Toy.backend net unzip).
Proof.
  intros d s s'. cbn. unfold Toy.rmtree_.
  destruct (Toy.exists_ s d); [|discriminate].
  intros H. injection H as <-. unfold Toy.exists_.
  induction s as [|f s IH]; [reflexivity|]. cbn [filter].
  destruct (Toy.inside d (fst f)) eqn:E; cbn [negb]; [exact IH|].
  cbn [existsb]. now rewrite E, IH.
Qed.

(** C4: when the [except] block runs (the [try] block has raised) and
    [shutil.rmtree] does what it documents, a load that returns a
    structure returns it with the scratch directory gone, [rmtree] being
    the last call made; when the extraction raises, or a reader of the
    extracted file raises, the error propagates, [rmtree] is not called
    and the file system stays as the extraction left it. *)
Theorem scratch_removed_on_success_only {B : Backend} (g : Globals)
    (url fp : string) (kwargs : Kwargs) (w : World B) (r : Response)
    (z : ZipArchive B) (e0 : exn) (w1 : World B) :
  rmtree_removes B ->
  fetched B url r ->
  zipfile_ZipFile B (content r) = Ok z ->
  read_in_archive z fp (detect_file_type fp) kwargs
    (note EvZipFile (note (EvGet url user_agent) w)) = (Raise e0, w1) ->
  let load := load_data_from_url g url true (Some fp) kwargs w in
  let extraction := ZipFile_extractall B z scratch (fs w1) in
  let extracted := then_ w1 (snd extraction) [EvExtractAll scratch] in
  (forall d w',
      load = (Ok d, w') ->
      os_path_exists B (fs w') scratch = false
      /\ exists evs, new_events w w' = (evs ++ [EvRmtree scratch])%list)
  /\ (forall e,
        fst extraction = Raise e ->
        load = (Raise e, extracted)
        /\ existsb is_rmtree (new_events w extracted) = false)
  /\ (forall e w3,
        fst extraction = Ok tt ->
        read_extracted g (detect_file_type fp)
          (FilePath (full_path_of B fp)) kwargs extracted = (Raise e, w3) ->
        load = (Raise e, w3)
        /\ fs w3 = snd extraction
        /\ existsb is_rmtree (new_events w w3) = false).
Proof.
  intros Hrm F Hz Htry load extraction extracted.
  assert (Hload : load
                  = bind (extract_and_load g z fp (detect_file_type fp) kwargs)
                         (return_local "data") w1)
    by exact (load_falls_back _ _ _ _ _ _ _ _ _ F Hz Htry).
  destruct (read_in_archive_quiet _ _ _ _ _ _ _ Htry) as [_ (ev1 & J1 & Q1)].
  cbn [journal note] in J1.
  assert (Hex : extractall z scratch w1 = (fst extraction, extracted)).
  { unfold extractall, call_fs, extracted, then_. fold extraction.
    destruct extraction; reflexivity. }
  assert (Jex : new_events w extracted
                = ([EvGet url user_agent; EvZipFile] ++ ev1
                   ++ [EvExtractAll scratch])%list).
  { unfold new_events, extracted, then_. cbn [journal]. rewrite J1.
    rewrite <- !app_assoc.
    rewrite skipn_app, skipn_all, Nat.sub_diag. reflexivity. }
  assert (Qex : existsb is_rmtree (new_events w extracted) = false).
  { rewrite Jex, !existsb_app, Q1. reflexivity. }
  assert (Jx : journal extracted = (journal w1 ++ [EvExtractAll scratch])%list)
    by reflexivity.
  assert (Fx : fs extracted = snd extraction) by reflexivity.
  assert (Hrun : load
                 = match fst extraction with
                   | Ok _ =>
                       bind (bind (read_extracted g (detect_file_type fp)
                                     (FilePath (full_path_of B fp)) kwargs)
                                  (fun data =>
                                     bind (rmtree scratch) (fun _ => ret data)))
                            (return_local "data") extracted
                   | Raise e => (Raise e, extracted)
                   end).
  { rewrite Hload. unfold extract_and_load.
    rewrite bind_bind, (bind_run _ _ _ _ _ Hex).
    destruct (fst extraction); reflexivity. }
  clearbody load extracted. clear Hload Hex. subst load.
  split; [|split].
  - (* the load returns *)
    intros d w' H. destruct (fst extraction) as [[]|e]; [|discriminate].
    rewrite bind_bind in H. unfold bind at 1 in H.
    destruct (read_extracted g (detect_file_type fp)
                (FilePath (full_path_of B fp)) kwargs extracted)
      as [[v|e] w3] eqn:Hread; [|discriminate].
    destruct (read_extracted_quiet _ _ _ _ _ _ _ Hread) as [_ (ev3 & J3 & _)].
    unfold bind, rmtree, call_fs, ret in H.
    destruct (shutil_rmtree B scratch (fs w3)) as [[[]|e] s4] eqn:Hrmtree;
      [|discriminate].
    destruct v as [d'|]; [|discriminate]. cbn in H. injection H as <- <-.
    split; [exact (Hrm _ _ _ Hrmtree)|].
    exists (new_events w extracted ++ ev3)%list.
    rewrite Jex. unfold new_events. cbn [journal]. rewrite J3, Jx, J1.
    rewrite <- !app_assoc.
    rewrite skipn_app, skipn_all, Nat.sub_diag. reflexivity.
  - (* the extraction raises *)
    intros e He. rewrite He. split; [reflexivity|exact Qex].
  - (* a reader raises *)
    intros e w3 He Hread. rewrite He.
    rewrite bind_bind. unfold bind at 1. rewrite Hread.
    split; [reflexivity|].
    destruct (read_extracted_quiet _ _ _ _ _ _ _ Hread) as [F3 (ev3 & J3 & Q3)].
    split; [rewrite F3; exact Fx|].
    unfold new_events. rewrite J3, Jx, J1, <- !app_assoc.
    rewrite skipn_app, skipn_all, Nat.sub_diag. cbn [skipn].
    rewrite !existsb_app, Q1, Q3. reflexivity.
Qed.

Lemma scratch_removed_on_success_only_witness :
  let B := Toy.backend (Toy.serve 200 "OK" "PK..")
             (Toy.archive_of [("d/a.tif", "II*"); ("d/a.tfw", "1.0")]) in
  exists d w',
    load_data_from_url (B := B) module_globals "http://h/a.zip" true
      (Some "d/a.tif") [] (Toy.start _ _) = (Ok d, w')
    /\ os_path_exists B (fs w') scratch = false.
Proof.
  intros B.
  pose proof (scratch_removed_on_success_only (B := B) module_globals
                "http://h/a.zip" "d/a.tif" [] (Toy.start _ _)
                (mkResponse 200 "OK" "http://h/a.zip"
                            (list_byte_of_string "PK.."))
                (map (fun m => (fst m, list_byte_of_string (snd m)))
                     [("d/a.tif", "II*"); ("d/a.tfw", "1.0")])
                (NotImplementedError msg_extraction)
                (mkWorld (B := B) []
                   [EvGet "http://h/a.zip" user_agent; EvZipFile;
                    EvOpenMember "d/a.tif"])
                (toy_rmtree_removes _ _) (conj eq_refl eq_refl) eq_refl
                eq_refl) as [Hok _].
  eexists. eexists. split; [reflexivity|].
  exact (proj1 (Hok _ _ eq_refl)).
Defined.

(** ** Formats the zipped branch does not handle *)



(** ** The undefined name [saws_crs] *)

Section Unbound.

Context {B : Backend}.
Implicit Types (g : Globals) (w : World B) (kw : Kwargs).

(** Without a binding of [saws_crs], reading a vector source never
    returns: the reader's own error, or [NameError] once the file is
    read. *)
Lemma read_vector_unbound g src kw w :
  lookup g "saws_crs" = None ->
  read_vector g src kw w
  = (match gpd_read_file B (fs w) src kw with
     | Ok _ => Raise (NameError "saws_crs")
     | Raise e => Raise e
     end,
     note (EvRead Rvector src kw) w).
Proof.
  intros Hg. unfold read_vector, bind, read_file, call, lift, load_global.
  rewrite Hg. destruct (gpd_read_file B (fs w) src kw); reflexivity.
Qed.

(** With a binding, the frame read is handed to [to_crs] with the bound
    value as target. *)
Lemma read_vector_bound g src kw w target :
  lookup g "saws_crs" = Some target ->
  read_vector g src kw w
  = match gpd_read_file B (fs w) src kw with
    | Ok gdf =>
        (GeoDataFrame_to_crs B gdf target,
         note (EvToCrs target) (note (EvRead Rvector src kw) w))
    | Raise e => (Raise e, note (EvRead Rvector src kw) w)
    end.
Proof.
  intros Hg.
  unfold read_vector, bind, read_file, to_crs, call, lift, load_global.
  rewrite Hg. destruct (gpd_read_file B (fs w) src kw); reflexivity.
Qed.

Lemma unzipped_vector_unbound g url filepath kw w r :
  lookup g "saws_crs" = None ->
  fetched B url r ->
  detect_file_type url = vector ->
  load_data_from_url g url false filepath kw w
  = (match gpd_read_file B (fs w) (Buffer (content r)) kw with
     | Ok _ => Raise (NameError "saws_crs")
     | Raise e => Raise e
     end,
     then_ w (fs w)
       [EvGet url user_agent; EvRead Rvector (Buffer (content r)) kw]).
Proof.
  intros Hg F Hv. rewrite (load_fetched _ _ _ _ _ _ _ F).
  unfold after_fetch. cbn [negb]. rewrite Hv. unfold read_unzipped.
  rewrite !bind_bind. unfold bind at 1.
  rewrite (read_vector_unbound _ _ _ _ Hg). cbn [fs note].
  destruct (gpd_read_file B (fs w) (Buffer (content r)) kw); same_world.
Qed.

Lemma zipped_vector_unbound g url fp kw w r z :
  lookup g "saws_crs" = None ->
  fetched B url r ->
  zipfile_ZipFile B (content r) = Ok z ->
  detect_file_type fp = vector ->
  load_data_from_url g url true (Some fp) kw w
  = match ZipFile_extractall B z scratch (fs w) with
    | (Ok _, s1) =>
        (match gpd_read_file B s1 (FilePath (full_path_of B fp)) kw with
         | Ok _ => Raise (NameError "saws_crs")
         | Raise e => Raise e
         end,
         then_ w s1
           [EvGet url user_agent; EvZipFile; EvOpenMember fp;
            EvExtractAll scratch;
            EvRead Rvector (FilePath (full_path_of B fp)) kw])
    | (Raise e, s1) =>
        (Raise e,
         then_ w s1
           [EvGet url user_agent; EvZipFile; EvOpenMember fp;
            EvExtractAll scratch])
    end.
Proof.
  intros Hg F Hz Hv.
  destruct (read_in_archive_extraction z fp (detect_file_type fp) kw
              (note EvZipFile (note (EvGet url user_agent) w))
              (or_introl Hv)) as [e Htry].
  rewrite (load_falls_back _ _ _ _ _ _ _ _ _ F Hz Htry). rewrite Hv.
  unfold extract_and_load, read_extracted. rewrite !bind_bind.
  unfold bind at 1. unfold extractall, call_fs. cbn [fs journal note].
  destruct (ZipFile_extractall B z scratch (fs w)) as [[[]|e1] s1];
    [|same_world].
  rewrite !bind_bind. unfold bind at 1.
  rewrite (read_vector_unbound _ _ _ _ Hg). cbn [fs].
  destruct (gpd_read_file B s1 (FilePath (full_path_of B fp)) kw);
    same_world.
Qed.

Lemma lat_long_to_point_unbound g df lat_col long_col w :
  lookup g "saws_crs" = None ->
  is_ok (fst (lat_long_to_point g df lat_col long_col w)) = false
  /\ forall longs lats df_geo gdf,
       getitem df long_col = Ok longs ->
       getitem df lat_col = Ok lats ->
       points B (combine longs lats) = Ok df_geo ->
       GeoDataFrame_new df df_geo (PyStr "EPSG:4326") = Ok gdf ->
       lat_long_to_point g df lat_col long_col w
       = (Raise (NameError "saws_crs"), w).
Proof.
  intros Hg. unfold lat_long_to_point, bind, lift, load_global.
  rewrite Hg. split.
  - case_calls; reflexivity.
  - intros longs lats df_geo gdf -> -> -> ->. reflexivity.
Qed.

(** With a binding, the helper builds one point per row with x from the
    longitude column and y from the latitude column, tags the frame
    EPSG:4326 and hands it to [to_crs] with the bound value as target. *)
Lemma points_of_floats longs lats :
  points B (combine (map CFloat longs) (map CFloat lats))
  = Ok (lon_lat_points longs lats).
Proof.
  revert lats. induction longs as [|lon longs IH]; intros [|lat lats];
    try reflexivity.
  cbn [map combine points Point lon_lat_points]. now rewrite IH.
Qed.

Lemma lat_long_to_point_bound g df lat_col long_col w target longs lats :
  lookup g "saws_crs" = Some target ->
  getitem df long_col = Ok (map CFloat longs) ->
  getitem df lat_col = Ok (map CFloat lats) ->
  List.length (lon_lat_points longs lats) = nrows df ->
  lat_long_to_point g df lat_col long_col w
  = (GeoDataFrame_to_crs B
       (mkGeoDataFrame df (lon_lat_points longs lats) (PyStr "EPSG:4326"))
       target,
     note (EvToCrs target) w).
Proof.
  intros Hg Hlong Hlat Hn.
  unfold lat_long_to_point, bind, lift, load_global, to_crs, call.
  rewrite Hlong, Hlat, points_of_floats, Hg. unfold GeoDataFrame_new.
  rewrite Hn, Nat.eqb_refl. reflexivity.
Qed.

End Unbound.

Lemma zipped_load_returns_inv {B : Backend} (g : Globals) (url : string)
    (filepath : option string) (kw : Kwargs) (w : World B) d w' :
  load_data_from_url g url true filepath kw w = (Ok d, w') ->
  exists r z, fetched B url r /\ zipfile_ZipFile B (content r) = Ok z.
Proof.
  intros H. destruct (load_returns_inv _ _ _ _ _ _ _ _ H) as (r & F & H').
  unfold after_fetch in H'. cbn [negb] in H'. unfold bind at 1 in H'.
  unfold load_zipped in H'. unfold bind at 1 in H'. unfold ZipFile, call in H'.
  destruct (zipfile_ZipFile B (content r)) as [z|e] eqn:Hz; [|discriminate].
  exists r, z. split; [exact F|exact Hz].
Qed.

(** C9: the module never binds [saws_crs], so with the module's own
    namespace no vector load and no call of [lat_long_to_point] returns a
    frame; each fails with [NameError] for [saws_crs] as soon as the steps
    before the reprojection have succeeded: the non-zipped vector load
    once the file is read, the zipped one once the archive is extracted
    and the file read (the scratch directory is then left in place), and
    [lat_long_to_point] once the points and the frame are built. *)
Theorem saws_crs_is_never_bound {B : Backend} :
  lookup module_globals "saws_crs" = None
  /\ (forall url filepath kwargs (w : World B),
        detect_file_type url = vector ->
        is_ok (fst (load_data_from_url module_globals url false filepath
                      kwargs w)) = false
        /\ forall r gdf,
             fetched B url r ->
             gpd_read_file B (fs w) (Buffer (content r)) kwargs = Ok gdf ->
             load_data_from_url module_globals url false filepath kwargs w
             = (Raise (NameError "saws_crs"),
                then_ w (fs w)
                  [EvGet url user_agent;
                   EvRead Rvector (Buffer (content r)) kwargs]))
  /\ (forall url fp kwargs (w : World B),
        detect_file_type fp = vector ->
        is_ok (fst (load_data_from_url module_globals url true (Some fp)
                      kwargs w)) = false
        /\ forall r z s1 gdf,
             fetched B url r ->
             zipfile_ZipFile B (content r) = Ok z ->
             ZipFile_extractall B z scratch (fs w) = (Ok tt, s1) ->
             gpd_read_file B s1 (FilePath (full_path_of B fp)) kwargs
             = Ok gdf ->
             load_data_from_url module_globals url true (Some fp) kwargs w
             = (Raise (NameError "saws_crs"),
                then_ w s1
                  [EvGet url user_agent; EvZipFile; EvOpenMember fp;
                   EvExtractAll scratch;
                   EvRead Rvector (FilePath (full_path_of B fp)) kwargs]))
  /\ (forall df lat_col long_col (w : World B),
        is_ok (fst (lat_long_to_point module_globals df lat_col long_col w))
        = false
        /\ forall longs lats df_geo gdf,
             getitem df long_col = Ok longs ->
             getitem df lat_col = Ok lats ->
             points B (combine longs lats) = Ok df_geo ->
             GeoDataFrame_new df df_geo (PyStr "EPSG:4326") = Ok gdf ->
             lat_long_to_point module_globals df lat_col long_col w
             = (Raise (NameError "saws_crs"), w)).
Proof.
  assert (Hg : lookup module_globals "saws_crs" = None) by reflexivity.
  split; [exact Hg|]. split; [|split].
  - intros url filepath kwargs w Hv. split.
    + assert (Hnot : forall d w',
                 load_data_from_url module_globals url false filepath kwargs w
                 <> (Ok d, w')).
      { intros d w' H.
        destruct (load_returns_inv _ _ _ _ _ _ _ _ H) as (r & F & _).
        rewrite (unzipped_vector_unbound _ _ _ _ _ _ Hg F Hv) in H.
        revert H. case_calls; intros H; discriminate H. }
      destruct (load_data_from_url module_globals url false filepath kwargs w)
        as [[d|e] w']; [|reflexivity].
      exfalso. exact (Hnot d w' eq_refl).
    + intros r gdf F Hread.
      rewrite (unzipped_vector_unbound _ _ _ _ _ _ Hg F Hv), Hread.
      reflexivity.
  - intros url fp kwargs w Hv. split.
    + assert (Hnot : forall d w',
                 load_data_from_url module_globals url true (Some fp) kwargs w
                 <> (Ok d, w')).
      { intros d w' H.
        destruct (zipped_load_returns_inv _ _ _ _ _ _ _ H) as (r & z & F & Hz).
        rewrite (zipped_vector_unbound _ _ _ _ _ _ _ Hg F Hz Hv) in H.
        revert H. case_calls; intros H; discriminate H. }
      destruct (load_data_from_url module_globals url true (Some fp) kwargs w)
        as [[d|e] w']; [|reflexivity].
      exfalso. exact (Hnot d w' eq_refl).
    + intros r z s1 gdf F Hz Hex Hread.
      rewrite (zipped_vector_unbound _ _ _ _ _ _ _ Hg F Hz Hv), Hex, Hread.
      reflexivity.
  - intros df lat_col long_col w.
    exact (lat_long_to_point_unbound _ df lat_col long_col w Hg).
Qed.

Lemma saws_crs_is_never_bound_witness :
  let B := Toy.backend (Toy.serve 200 "OK" "{}") Toy.no_archive in
  load_data_from_url (B := B) module_globals "http://h/a.geojson" false None
    [] (Toy.start _ _)
  = (Raise (NameError "saws_crs"),
     mkWorld (B := B) []
       [EvGet "http://h/a.geojson" user_agent;
        EvRead Rvector (Buffer (list_byte_of_string "{}")) []])
  /\ lat_long_to_point (B := B) module_globals
       (mkDataFrame [("lat", [CFloat 34.0]); ("long", [CFloat (-118.0)])])
       "lat" "long" (Toy.start _ _)
     = (Raise (NameError "saws_crs"), Toy.start _ _).
Proof.
  intros B.
  destruct (saws_crs_is_never_bound (B := B)) as (_ & Hplain & _ & Hpoint).
  split.
  - exact (proj2 (Hplain "http://h/a.geojson" None [] (Toy.start _ _) eq_refl)
                 (mkResponse 200 "OK" "http://h/a.geojson"
                             (list_byte_of_string "{}"))
                 (Toy.shapes (list_byte_of_string "{}"))
                 (conj eq_refl eq_refl) eq_refl).
  - exact (proj2 (Hpoint
                    (mkDataFrame
                       [("lat", [CFloat 34.0]); ("long", [CFloat (-118.0)])])
                    "lat" "long" (Toy.start _ _))
                 [CFloat (-118.0)] [CFloat 34.0]
                 [mkPoint (-118.0) 34.0]
                 (mkGeoDataFrame
                    (mkDataFrame
                       [("lat", [CFloat 34.0]); ("long", [CFloat (-118.0)])])
                    [mkPoint (-118.0) 34.0] (PyStr "EPSG:4326"))
                 eq_refl eq_refl eq_refl eq_refl).
Defined.

(** ** The two claims the missing binding breaks *)

(** C2 (the code at a failing input): a non-zipped load of a GeoJSON
    payload, fetched with status 200 and read without error, raises
    [NameError] for [saws_crs] under the module's namespace instead of
    returning a frame; had the namespace bound the name, the same call
    would return the frame with that value as its CRS. *)
Theorem vector_load_raises_name_error :
  let B := Toy.backend (Toy.serve 200 "OK" "{}") Toy.no_archive in
  load_data_from_url (B := B) module_globals "http://h/a.geojson" false None
    [] (Toy.start _ _)
  = (Raise (NameError "saws_crs"),
     mkWorld (B := B) []
       [EvGet "http://h/a.geojson" user_agent;
        EvRead Rvector (Buffer (list_byte_of_string "{}")) []])
  /\ fst (load_data_from_url (B := B)
            (("saws_crs", PyStr "EPSG:2229") :: module_globals)
            "http://h/a.geojson" false None [] (Toy.start _ _))
     = Ok (Geospatial
             (mkGeoDataFrame (Toy.table "name" (list_byte_of_string "{}"))
                             [mkShape "{}"] (PyStr "EPSG:2229"))).
Proof. split; reflexivity. Qed.

(** C8 (the code at a failing input): on the one-row table with latitude
    34.0 and longitude -118.0 the helper raises [NameError] for
    [saws_crs] under the module's namespace instead of returning a frame;
    had the namespace bound the name, the same call would hand to
    [to_crs] the EPSG:4326 frame whose point is x = -118.0, y = 34.0. *)
Theorem lat_long_to_point_raises_name_error :
  let B := Toy.backend (Toy.serve 200 "OK" "") Toy.no_archive in
  let df := mkDataFrame [("lat", [CFloat 34.0]); ("long", [CFloat (-118.0)])] in
  lat_long_to_point (B := B) module_globals df "lat" "long" (Toy.start _ _)
  = (Raise (NameError "saws_crs"), Toy.start _ _)
  /\ lat_long_to_point (B := B)
       (("saws_crs", PyStr "EPSG:2229") :: module_globals)
       df "lat" "long" (Toy.start _ _)
     = (GeoDataFrame_to_crs B
          (mkGeoDataFrame df [mkPoint (-118.0) 34.0] (PyStr "EPSG:4326"))
          (PyStr "EPSG:2229"),
        mkWorld (B := B) [] [EvToCrs (PyStr "EPSG:2229")]).
Proof. split; reflexivity. Qed.

(* ================================================================== *)
(** * Further properties of the format detector *)

Section DetectorMore.

Import Str posixpath.

Lemma lower_char_idempotent c : lower_char (lower_char c) = lower_char c.
Proof. destruct c as [[] [] [] [] [] [] [] []]; reflexivity. Qed.

Lemma lower_char_is_sep c : Ascii.eqb (lower_char c) sep = Ascii.eqb c sep.
Proof. destruct c as [[] [] [] [] [] [] [] []]; reflexivity. Qed.

Lemma lower_idempotent s : lower (lower s) = lower s.
Proof.
  induction s as [|c s IH]; simpl; [reflexivity|].
  now rewrite lower_char_idempotent, IH.
Qed.

Lemma lower_app a b : lower (a ++ b) = (lower a ++ lower b)%string.
Proof. induction a as [|c a IH]; simpl; [reflexivity|now rewrite IH]. Qed.

Lemma contains_sep_lower s : contains sep (lower s) = contains sep s.
Proof.
  induction s as [|c s IH]; simpl; [reflexivity|].
  now rewrite lower_char_is_sep, IH.
Qed.

Lemma basename_lower s : basename (lower s) = lower (basename s).
Proof.
  induction s as [|c s IH]; [reflexivity|].
  cbn [lower basename]. rewrite contains_sep_lower, lower_char_is_sep.
  destruct (contains sep s); [exact IH|].
  destruct (Ascii.eqb c sep); reflexivity.
Qed.

Lemma basename_no_sep s : contains sep (basename s) = false.
Proof.
  induction s as [|c s IH]; [reflexivity|]. cbn [basename].
  destruct (contains sep s) eqn:Hs; [exact IH|].
  destruct (Ascii.eqb c sep) eqn:Hc; [exact Hs|].
  cbn [contains]. now rewrite Hc, Hs.
Qed.

Lemma basename_app_r a b :
  contains sep b = false -> basename (a ++ b) = (basename a ++ b)%string.
Proof.
  intros Hb. induction a as [|c a IH]; [exact (basename_plain b Hb)|].
  cbn [append basename]. rewrite contains_app, Hb, orb_false_r.
  destruct (contains sep a); [exact IH|].
  destruct (Ascii.eqb c sep); reflexivity.
Qed.

Lemma dotfile_basename s : dotfile (basename s) = dotfile s.
Proof.
  unfold dotfile. now rewrite (basename_plain _ (basename_no_sep s)).
Qed.

(** The extension of a path is the extension of its last component. *)
Lemma splitext_ext_basename s :
  snd (splitext (basename s)) = snd (splitext s).
Proof.
  rewrite !splitext_ext, dotfile_basename.
  destruct (dotfile s); [reflexivity|].
  destruct (contains sep s) eqn:Hsep;
    [|now rewrite (basename_plain _ Hsep)].
  destruct (split_at_last _ _ Hsep) as (a & b & -> & Hb).
  rewrite (basename_last a b Hb).
  destruct (contains extsep b) eqn:Hdot.
  - (* the last component has a dot *)
    destruct (split_at_last _ _ Hdot) as (b1 & b2 & -> & Hb2).
    replace (a ++ String sep (b1 ++ String extsep b2))%string
      with ((a ++ String sep b1) ++ String extsep b2)%string
      by (rewrite append_assoc; reflexivity).
    now rewrite !(ext_after_final_dot_last _ b2 Hb2).
  - (* it has none: a dot, if any, is in a directory name *)
    rewrite (ext_after_final_dot_none _ Hdot). cbn [contains].
    destruct (contains extsep a) eqn:Ha.
    + destruct (split_at_last _ _ Ha) as (a1 & a2 & -> & Ha2).
      replace ((a1 ++ String extsep a2) ++ String sep b)%string
        with (a1 ++ String extsep (a2 ++ String sep b))%string
        by (rewrite append_assoc; reflexivity).
      rewrite ext_after_final_dot_last.
      * cbn [contains]. rewrite contains_app. cbn [contains].
        now rewrite Ascii.eqb_refl, !orb_true_r.
      * rewrite contains_app, Ha2. cbn [contains]. now rewrite Hdot.
    + rewrite ext_after_final_dot_none; [reflexivity|].
      rewrite contains_app, Ha. cbn [contains]. now rewrite Hdot.
Qed.

Lemma slice_to_from n s : (slice_to n s ++ slice_from n s)%string = s.
Proof.
  revert s. induction n as [|n IH]; intros [|c s]; try reflexivity.
  cbn [slice_to slice_from append]. now rewrite IH.
Qed.

Lemma ext_after_final_dot_shape s :
  ext_after_final_dot s = EmptyString
  \/ exists e, ext_after_final_dot s = String extsep e
               /\ contains extsep e = false.
Proof.
  destruct (contains extsep s) eqn:Hdot.
  - destruct (split_at_last _ _ Hdot) as (a & b & -> & Hb).
    right. exists b. split; [exact (ext_after_final_dot_last a b Hb)|exact Hb].
  - left. exact (ext_after_final_dot_none _ Hdot).
Qed.

End DetectorMore.

(** X1: detection does not depend on the case of the letters: the
    lower-cased path gets the tag of the path. *)
Theorem detect_file_type_ignores_case (path : string) :
  detect_file_type (Str.lower path) = detect_file_type path.
Proof. unfold detect_file_type. now rewrite lower_idempotent. Qed.

(** X2: only the last component of the path decides: the directories
    before the last ['/'], dots in their names included, play no part. *)
Theorem detect_file_type_of_basename (path : string) :
  detect_file_type (basename path) = detect_file_type path.
Proof.
  unfold detect_file_type.
  now rewrite <- basename_lower, splitext_ext_basename.
Qed.

(** X3: [splitext] cuts the path in two: root and extension put together
    give the path back; the extension is empty, or starts with its only
    dot and holds no ['/']. *)
Theorem splitext_cuts_the_path (p : string) :
  (fst (posixpath.splitext p) ++ snd (posixpath.splitext p))%string = p
  /\ (snd (posixpath.splitext p) = EmptyString
      \/ exists e,
           snd (posixpath.splitext p) = String posixpath.extsep e
           /\ Str.contains posixpath.extsep e = false
           /\ Str.contains posixpath.sep e = false).
Proof.
  split.
  - unfold posixpath.splitext. destruct (_ && _); cbn [fst snd].
    + apply slice_to_from.
    + clear. induction p as [|c p IH]; [reflexivity|]. cbn. now rewrite IH.
  - rewrite splitext_ext. destruct (dotfile p); [now left|].
    destruct (Str.contains posixpath.sep (ext_after_final_dot p)) eqn:Hsep;
      [now left|].
    destruct (ext_after_final_dot_shape p) as [->|(e & He & Hdot)];
      [now left|].
    right. exists e. rewrite He in *. cbn [Str.contains] in Hsep.
    apply orb_false_elim in Hsep as [_ Hsep]. now repeat split.
Qed.

(** X4: a path whose last component has no dot is [unknown], whatever
    dots the directory names hold. *)
Theorem detect_file_type_without_dot (path : string) :
  Str.contains posixpath.extsep (basename (Str.lower path)) = false ->
  detect_file_type path = unknown.
Proof.
  intros H. unfold detect_file_type.
  rewrite <- splitext_ext_basename, splitext_ext.
  rewrite (ext_after_final_dot_none _ H).
  destruct (dotfile _); reflexivity.
Qed.

Lemma detect_file_type_without_dot_witness :
  detect_file_type "https://www.sciencebase.gov/catalog/file" = unknown.
Proof.
  exact (detect_file_type_without_dot
           "https://www.sciencebase.gov/catalog/file" eq_refl).
Defined.

(** X5: a name that is not made of dots alone, followed by one of the
    eleven known extensions in any case, gets the tag of that extension. *)
Theorem detect_file_type_of_known_ext (path ext : string) :
  In (Str.lower ext) known_exts ->
  all_dots (basename (Str.lower path)) = false ->
  detect_file_type (path ++ ext) = tag_of_ext (Str.lower ext).
Proof.
  intros Hin Hname. unfold detect_file_type. rewrite lower_app.
  set (q := Str.lower path) in *. set (x := Str.lower ext) in *.
  assert (Hx : exists e, x = String posixpath.extsep e
                         /\ Str.contains posixpath.extsep e = false
                         /\ Str.contains posixpath.sep e = false).
  { unfold known_exts in Hin. unfold vector_exts, raster_exts in Hin.
    cbn [app In] in Hin.
    repeat (destruct Hin as [<-|Hin];
            [eexists; split; [reflexivity|split; reflexivity]|]).
    destruct Hin. }
  destruct Hx as (e & -> & Hdot & Hsep). f_equal.
  rewrite splitext_ext. unfold dotfile.
  rewrite basename_app_r by (cbn [Str.contains]; now rewrite Hsep).
  rewrite (before_final_dot_last _ e Hdot), Hname.
  rewrite (ext_after_final_dot_last q e Hdot). cbn [Str.contains].
  now rewrite Hsep.
Qed.

Lemma detect_file_type_of_known_ext_witness :
  detect_file_type "https://host/data/Wells.GeoJSON" = vector.
Proof.
  exact (detect_file_type_of_known_ext "https://host/data/Wells" ".GeoJSON"
           (or_intror (or_intror (or_intror (or_intror
              (or_intror (or_introl eq_refl))))))
           eq_refl).
Defined.

(* ================================================================== *)
(** * Further properties of the loader *)

Section Journal.

Context {B : Backend}.
Implicit Types (g : Globals) (w : World B) (kw : Kwargs) (P : Event -> bool).

Lemma emits_ret {A} P (a : A) : emits P (ret (B := B) a).
Proof.
  intros w r w' H. injection H as _ <-. exists []. now rewrite app_nil_r.
Qed.

Lemma emits_raise {A} P e : emits P (raise (B := B) (A := A) e).
Proof.
  intros w r w' H. injection H as _ <-. exists []. now rewrite app_nil_r.
Qed.

Lemma emits_lift {A} P (x : result A) : emits P (lift (B := B) x).
Proof.
  intros w r w' H. injection H as _ <-. exists []. now rewrite app_nil_r.
Qed.

Lemma emits_call {A} P e (f : FS B -> result A) :
  P e = true -> emits P (call e f).
Proof.
  intros He w r w' H. injection H as _ <-. exists [e]. split; [reflexivity|].
  cbn. now rewrite He.
Qed.

Lemma emits_call_fs P e (f : FS B -> result unit * FS B) :
  P e = true -> emits P (call_fs e f).
Proof.
  intros He w r w' H. unfold call_fs in H. destruct (f (fs w)) as [r0 s].
  injection H as _ <-. exists [e]. split; [reflexivity|].
  cbn. now rewrite He.
Qed.

Lemma emits_bind {A C} P (m : M B A) (k : A -> M B C) :
  emits P m -> (forall a, emits P (k a)) -> emits P (bind m k).
Proof.
  intros Hm Hk w r w' H. unfold bind in H.
  destruct (m w) as [[a|e] w1] eqn:E.
  - destruct (Hm _ _ _ E) as (e1 & J1 & P1).
    destruct (Hk a _ _ _ H) as (e2 & J2 & P2).
    exists (e1 ++ e2)%list. split.
    + rewrite J2, J1. now rewrite app_assoc.
    + rewrite forallb_app, P1, P2. reflexivity.
  - injection H as _ <-. exact (Hm _ _ _ E).
Qed.

Lemma emits_try {A} P (m : M B A) (h : exn -> M B A) :
  emits P m -> (forall e, emits P (h e)) -> emits P (try_except m h).
Proof.
  intros Hm Hh w r w' H. unfold try_except in H.
  destruct (m w) as [[a|e] w1] eqn:E.
  - injection H as _ <-. exact (Hm _ _ _ E).
  - destruct (Hm _ _ _ E) as (e1 & J1 & P1).
    destruct (Hh e _ _ _ H) as (e2 & J2 & P2).
    exists (e1 ++ e2)%list. split.
    + rewrite J2, J1. now rewrite app_assoc.
    + rewrite forallb_app, P1, P2. reflexivity.
Qed.

Lemma emits_new_events {A} P (m : M B A) w r w' :
  emits P m -> m w = (r, w') -> forallb P (new_events w w') = true.
Proof.
  intros Hm H. destruct (Hm _ _ _ H) as (evs & J & HP).
  unfold new_events. rewrite J, skipn_app, skipn_all, Nat.sub_diag.
  exact HP.
Qed.

Lemma keeps_ret {A} (a : A) : keeps_fs (ret (B := B) a).
Proof. intros w r w' H. now injection H as _ <-. Qed.

Lemma keeps_raise {A} e : keeps_fs (raise (B := B) (A := A) e).
Proof. intros w r w' H. now injection H as _ <-. Qed.

Lemma keeps_lift {A} (x : result A) : keeps_fs (lift (B := B) x).
Proof. intros w r w' H. now injection H as _ <-. Qed.

Lemma keeps_call {A} e (f : FS B -> result A) : keeps_fs (call e f).
Proof. intros w r w' H. now injection H as _ <-. Qed.

Lemma keeps_bind {A C} (m : M B A) (k : A -> M B C) :
  keeps_fs m -> (forall a, keeps_fs (k a)) -> keeps_fs (bind m k).
Proof.
  intros Hm Hk w r w' H. unfold bind in H.
  destruct (m w) as [[a|e] w1] eqn:E.
  - rewrite (Hk a _ _ _ H). exact (Hm _ _ _ E).
  - injection H as _ <-. exact (Hm _ _ _ E).
Qed.

Lemma keeps_try {A} (m : M B A) (h : exn -> M B A) :
  keeps_fs m -> (forall e, keeps_fs (h e)) -> keeps_fs (try_except m h).
Proof.
  intros Hm Hh w r w' H. unfold try_except in H.
  destruct (m w) as [[a|e] w1] eqn:E.
  - injection H as _ <-. exact (Hm _ _ _ E).
  - rewrite (Hh e _ _ _ H). exact (Hm _ _ _ E).
Qed.

End Journal.

(** One step of a proof that every call of a block satisfies a test, or
    that the block keeps the file system. *)
Ltac journal_step :=
  lazymatch goal with
  | |- emits _ (bind _ _) => apply emits_bind; [|intros ?]
  | |- emits _ (try_except _ _) => apply emits_try; [|intros ?]
  | |- emits _ (ret _) => apply emits_ret
  | |- emits _ (raise _) => apply emits_raise
  | |- emits _ (lift _) => apply emits_lift
  | |- emits _ (call _ _) => apply emits_call; reflexivity
  | |- emits _ (call_fs _ _) => apply emits_call_fs; reflexivity
  | |- keeps_fs (bind _ _) => apply keeps_bind; [|intros ?]
  | |- keeps_fs (try_except _ _) => apply keeps_try; [|intros ?]
  | |- keeps_fs (ret _) => apply keeps_ret
  | |- keeps_fs (raise _) => apply keeps_raise
  | |- keeps_fs (lift _) => apply keeps_lift
  | |- keeps_fs (call _ _) => apply keeps_call
  | |- emits _ (match ?x with _ => _ end) => destruct x
  | |- keeps_fs (match ?x with _ => _ end) => destruct x
  end.

Ltac unfold_blocks :=
  unfold after_fetch, load_zipped, read_unzipped, read_in_archive,
    extract_and_load, read_member, read_extracted, read_vector, return_local,
    ZipFile, open_member, extractall, rmtree, read_csv, read_excel,
    read_file, raster_open, to_crs, get;
  cbv zeta.

Lemma after_fetch_makes_no_get {B : Backend} g url zipped filepath kw r :
  emits (B := B) (fun e => negb (is_get e))
    (after_fetch g url zipped filepath kw r).
Proof. unfold_blocks. repeat journal_step. Qed.

Lemma forallb_negb_existsb {A} (P : A -> bool) l :
  forallb (fun x => negb (P x)) l = true -> existsb P l = false.
Proof.
  induction l as [|x l IH]; [reflexivity|]. cbn.
  destruct (P x); [discriminate|]. exact IH.
Qed.

(** X6: every call of the loader issues its one GET first, with the
    browser user agent, and no other GET after it, whatever happens
    next. *)
Theorem load_gets_once_first {B : Backend} (g : Globals) (url : string)
    (zipped : bool) (filepath : option string) (kwargs : Kwargs)
    (w : World B) :
  exists evs,
    new_events w (snd (load_data_from_url g url zipped filepath kwargs w))
    = EvGet url [("User-Agent", "Mozilla/5.0")] :: evs
    /\ existsb is_get evs = false.
Proof.
  destruct (requests_get B url user_agent) as [r|e] eqn:Hget.
  - destruct (raise_for_status r) as [[]|e] eqn:Hst.
    + rewrite (load_fetched g url zipped filepath kwargs w r (conj Hget Hst)).
      destruct (after_fetch g url zipped filepath kwargs r
                  (note (EvGet url user_agent) w)) as [res w'] eqn:H.
      destruct (after_fetch_makes_no_get _ _ _ _ _ _ _ _ _ H)
        as (evs & J & HP).
      exists evs. split; [|exact (forallb_negb_existsb _ _ HP)].
      unfold new_events. cbn [snd]. rewrite J. cbn [journal note].
      rewrite <- app_assoc, skipn_app, skipn_all, Nat.sub_diag. reflexivity.
    + rewrite (load_http_error _ _ _ _ _ _ _ _ Hget Hst).
      exists []. split; [apply new_events_note|reflexivity].
  - rewrite (load_fetch_raises _ _ _ _ _ _ _ Hget).
    exists []. split; [apply new_events_note|reflexivity].
Qed.

Lemma unzipped_after_fetch_makes_no_archive_call {B : Backend} g url
    filepath kw r :
  emits (B := B) (fun e => negb (is_archive_call e))
    (after_fetch g url false filepath kw r).
Proof. unfold_blocks. cbn [negb]. repeat journal_step. Qed.

Lemma unzipped_after_fetch_keeps_fs {B : Backend} g url filepath kw r :
  keeps_fs (B := B) (after_fetch g url false filepath kw r).
Proof. unfold_blocks. cbn [negb]. repeat journal_step. Qed.

(** X7: a load that is not zipped does not look at [filepath], leaves
    the file system as it found it, and makes no call on an archive or
    on the scratch directory: it opens, extracts and removes nothing. *)
Theorem unzipped_load_stays_off_disk {B : Backend} (g : Globals)
    (url : string) (filepath : option string) (kwargs : Kwargs)
    (w : World B) :
  load_data_from_url g url false filepath kwargs w
  = load_data_from_url g url false None kwargs w
  /\ fs (snd (load_data_from_url g url false filepath kwargs w)) = fs w
  /\ existsb is_archive_call
       (new_events w (snd (load_data_from_url g url false filepath kwargs w)))
     = false.
Proof.
  split; [reflexivity|].
  destruct (requests_get B url user_agent) as [r|e] eqn:Hget.
  - destruct (raise_for_status r) as [[]|e] eqn:Hst.
    + rewrite (load_fetched g url false filepath kwargs w r (conj Hget Hst)).
      destruct (after_fetch g url false filepath kwargs r
                  (note (EvGet url user_agent) w)) as [res w'] eqn:H.
      cbn [snd]. split.
      * exact (unzipped_after_fetch_keeps_fs _ _ _ _ _ _ _ _ H).
      * destruct (unzipped_after_fetch_makes_no_archive_call _ _ _ _ _ _ _ _ H)
          as (evs & J & HP).
        unfold new_events. rewrite J. cbn [journal note].
        rewrite <- app_assoc, skipn_app, skipn_all, Nat.sub_diag.
        cbn [skipn app existsb is_archive_call orb].
        exact (forallb_negb_existsb _ _ HP).
    + rewrite (load_http_error _ _ _ _ _ _ _ _ Hget Hst). cbn [snd].
      split; [reflexivity|]. now rewrite new_events_note.
  - rewrite (load_fetch_raises _ _ _ _ _ _ _ Hget). cbn [snd].
    split; [reflexivity|]. now rewrite new_events_note.
Qed.

(** X8: a non-zipped load of a known tabular or raster format makes one
    reader call on the downloaded bytes and returns what the reader
    returns, or raises the reader's own error unchanged: [read_csv] with
    [low_memory=False] for csv and txt, [read_excel] with the engine xlrd
    for xls and openpyxl for xlsx, [rasterio.open] for a raster; the
    caller's keyword arguments follow the fixed one. *)
Theorem unzipped_load_of_known_format {B : Backend} (g : Globals)
    (url : string) (filepath : option string) (kwargs : Kwargs)
    (w : World B) (r : Response) :
  fetched B url r ->
  let buffer := Buffer (content r) in
  let outcome {A} (wrap : A -> Data) (reader : Reader) (kw : Kwargs)
        (res : result A) :=
    load_data_from_url g url false filepath kwargs w
    = (result_map wrap res,
       then_ w (fs w) [EvGet url user_agent; EvRead reader buffer kw]) in
  match detect_file_type url with
  | csv | txt =>
      outcome Tabular Rcsv (("low_memory", PyBool false) :: kwargs)
        (pd_read_csv B (fs w) buffer (("low_memory", PyBool false) :: kwargs))
  | xls =>
      outcome Tabular Rexcel (("engine", PyStr "xlrd") :: kwargs)
        (pd_read_excel B (fs w) buffer (("engine", PyStr "xlrd") :: kwargs))
  | xlsx =>
      outcome Tabular Rexcel (("engine", PyStr "openpyxl") :: kwargs)
        (pd_read_excel B (fs w) buffer
           (("engine", PyStr "openpyxl") :: kwargs))
  | raster =>
      outcome Raster Rraster kwargs (rasterio_open B (fs w) buffer kwargs)
  | vector | unknown => True
  end.
Proof.
  intros F buffer outcome. subst outcome. cbv beta.
  rewrite (load_fetched _ _ _ _ _ _ _ F). unfold after_fetch. cbn [negb].
  cbv zeta. fold buffer.
  destruct (detect_file_type url); try exact I;
    unfold read_unzipped, bind, read_csv, read_excel, raster_open, call, ret,
      return_local, low_memory, engine, result_map;
    cbn [fs journal note]; case_calls; same_world.
Qed.

Lemma unzipped_load_of_known_format_witness :
  let B := Toy.backend (Toy.serve 200 "OK" "a,b") Toy.no_archive in
  load_data_from_url (B := B) module_globals "http://h/data.txt" false None
    [("sep", PyStr ",")] (Toy.start _ _)
  = (Ok (Tabular (Toy.table "text" (list_byte_of_string "a,b"))),
     mkWorld (B := B) []
       [EvGet "http://h/data.txt" user_agent;
        EvRead Rcsv (Buffer (list_byte_of_string "a,b"))
          [("low_memory", PyBool false); ("sep", PyStr ",")]]).
Proof.
  intros B.
  exact (unzipped_load_of_known_format (B := B) module_globals
           "http://h/data.txt" None [("sep", PyStr ",")] (Toy.start _ _)
           (mkResponse 200 "OK" "http://h/data.txt"
                       (list_byte_of_string "a,b"))
           (conj eq_refl eq_refl)).
Defined.

(** X9: a zipped load of a csv, xls or xlsx member that opens and that
    the reader reads returns the table read from the open member; the
    archive is not extracted and the file system is not touched. *)
Theorem zipped_table_read_in_archive {B : Backend} (g : Globals)
    (url fp : string) (kwargs : Kwargs) (w : World B) (r : Response)
    (z : ZipArchive B) (file : Bytes) (ev : Event) (df : DataFrame) :
  fetched B url r ->
  zipfile_ZipFile B (content r) = Ok z ->
  ZipFile_open B z fp = Ok file ->
  tabular_read B (detect_file_type fp) kwargs (fs w) (MemberStream fp file)
  = Some (ev, Ok df) ->
  load_data_from_url g url true (Some fp) kwargs w
  = (Ok (Tabular df),
     then_ w (fs w) [EvGet url user_agent; EvZipFile; EvOpenMember fp; ev]).
Proof.
  intros F Hz Hopen Hread. rewrite (load_fetched _ _ _ _ _ _ _ F).
  unfold after_fetch. cbn [negb]. unfold bind at 1.
  rewrite (load_zipped_opened _ _ _ _ _ _ Hz).
  unfold try_except, read_in_archive, bind, open_member, call.
  rewrite Hopen. cbn [fs note].
  destruct (detect_file_type fp); try discriminate Hread;
    cbn [tabular_read] in Hread; injection Hread as <- Hres;
    unfold read_member, bind, read_csv, read_excel, call, ret, return_local;
    cbn [fs note]; rewrite Hres; same_world.
Qed.

Lemma zipped_table_read_in_archive_witness :
  let B := Toy.backend (Toy.serve 200 "OK" "PK..")
             (Toy.archive_of [("Major_Ions.csv", "TDS_mgL")]) in
  fst (load_data_from_url (B := B) module_globals data_url true
         (Some "Major_Ions.csv") [] (Toy.start _ _))
  = Ok (Tabular (Toy.table "text" (list_byte_of_string "TDS_mgL"))).
Proof.
  intros B.
  rewrite (zipped_table_read_in_archive (B := B) module_globals data_url
             "Major_Ions.csv" [] (Toy.start _ _)
             (mkResponse 200 "OK" data_url (list_byte_of_string "PK.."))
             [("Major_Ions.csv", list_byte_of_string "TDS_mgL")]
             (list_byte_of_string "TDS_mgL")
             (EvRead Rcsv
                (MemberStream "Major_Ions.csv" (list_byte_of_string "TDS_mgL"))
                [("low_memory", PyBool false)])
             (Toy.table "text" (list_byte_of_string "TDS_mgL"))
             (conj eq_refl eq_refl) eq_refl eq_refl eq_refl).
  reflexivity.
Defined.

(** X10: when the reader fails on the open csv, xls or xlsx member, its
    error is dropped: the archive is extracted and the same reader, with
    the same keyword arguments, is run on the extracted path.  If it
    fails again the load raises this second error and leaves the scratch
    directory in place; if it returns a table and the directory is
    removed, the load returns that table. *)
Theorem zipped_table_read_twice {B : Backend} (g : Globals)
    (url fp : string) (kwargs : Kwargs) (w : World B) (r : Response)
    (z : ZipArchive B) (file : Bytes) (ev1 ev2 : Event) (e1 : exn)
    (s1 : FS B) (res2 : result DataFrame) :
  fetched B url r ->
  zipfile_ZipFile B (content r) = Ok z ->
  ZipFile_open B z fp = Ok file ->
  tabular_read B (detect_file_type fp) kwargs (fs w) (MemberStream fp file)
  = Some (ev1, Raise e1) ->
  ZipFile_extractall B z scratch (fs w) = (Ok tt, s1) ->
  tabular_read B (detect_file_type fp) kwargs s1
    (FilePath (full_path_of B fp)) = Some (ev2, res2) ->
  let attempts :=
    [EvGet url user_agent; EvZipFile; EvOpenMember fp; ev1;
     EvExtractAll scratch; ev2] in
  match res2 with
  | Raise e2 =>
      load_data_from_url g url true (Some fp) kwargs w
      = (Raise e2, then_ w s1 attempts)
  | Ok df =>
      forall s2,
        shutil_rmtree B scratch s1 = (Ok tt, s2) ->
        load_data_from_url g url true (Some fp) kwargs w
        = (Ok (Tabular df),
           then_ w s2 (attempts ++ [EvRmtree scratch]))
  end.
Proof.
  intros F Hz Hopen Hread1 Hex Hread2 attempts. subst attempts.
  assert (Hrun : load_data_from_url g url true (Some fp) kwargs w
                 = bind (extract_and_load g z fp (detect_file_type fp) kwargs)
                        (return_local "data")
                        (then_ w (fs w)
                           [EvGet url user_agent; EvZipFile; EvOpenMember fp;
                            ev1])).
  { apply (load_falls_back _ _ _ _ _ _ _ e1 _ F Hz).
    unfold read_in_archive, bind, open_member, call. rewrite Hopen.
    cbn [fs note].
    destruct (detect_file_type fp); try discriminate Hread1;
      cbn [tabular_read] in Hread1; injection Hread1 as <- Hres1;
      unfold read_member, bind, read_csv, read_excel, call;
      cbn [fs note]; rewrite Hres1; f_equal; same_world. }
  clear Hread1.
  destruct res2 as [df|e2]; [intros s2 Hrm|]; rewrite Hrun; clear Hrun;
    unfold extract_and_load, bind at 1 2, extractall, call_fs;
    cbn [fs journal then_]; rewrite Hex;
    (destruct (detect_file_type fp); try discriminate Hread2;
     cbn [tabular_read] in Hread2; injection Hread2 as <- Hres2;
     unfold read_extracted, bind, read_csv, read_excel, rmtree, call, call_fs,
       ret, return_local;
     cbn [fs journal note]; rewrite Hres2; cbn [fs journal note];
     try rewrite Hrm; same_world).
Qed.

Lemma zipped_table_read_twice_witness :
  let B := Toy.backend (Toy.serve 200 "OK" "PK..")
             (Toy.archive_of [("empty.csv", "")]) in
  load_data_from_url (B := B) module_globals "http://h/a.zip" true
    (Some "empty.csv") [] (Toy.start _ _)
  = (Raise (LibraryError "EmptyDataError" "No data in file"),
     mkWorld (B := B) [("/work/extracted_data/empty.csv", [])]
       [EvGet "http://h/a.zip" user_agent; EvZipFile; EvOpenMember "empty.csv";
        EvRead Rcsv (MemberStream "empty.csv" [])
          [("low_memory", PyBool false)];
        EvExtractAll "extracted_data";
        EvRead Rcsv (FilePath "/work/extracted_data/empty.csv")
          [("low_memory", PyBool false)]]).
Proof.
  intros B.
  exact (zipped_table_read_twice (B := B) module_globals "http://h/a.zip"
           "empty.csv" [] (Toy.start _ _)
           (mkResponse 200 "OK" "http://h/a.zip" (list_byte_of_string "PK.."))
           [("empty.csv", [])] []
           (EvRead Rcsv (MemberStream "empty.csv" [])
                   [("low_memory", PyBool false)])
           (EvRead Rcsv (FilePath "/work/extracted_data/empty.csv")
                   [("low_memory", PyBool false)])
           (LibraryError "EmptyDataError" "No data in file")
           [("/work/extracted_data/empty.csv", [])]
           (Raise (LibraryError "EmptyDataError" "No data in file"))
           (conj eq_refl eq_refl) eq_refl eq_refl eq_refl eq_refl eq_refl).
Defined.

(** X11: the module namespace matters to vector loads only: when the
    format that decides the dispatch is not [vector], two namespaces give
    the same outcome, so the missing [saws_crs] does not reach the
    tabular and raster loads. *)
Theorem load_reads_namespace_for_vector_only {B : Backend} (g1 g2 : Globals)
    (url : string) (zipped : bool) (filepath : option string)
    (kwargs : Kwargs) (w : World B) :
  dispatch_format url zipped filepath <> Some vector ->
  load_data_from_url g1 url zipped filepath kwargs w
  = load_data_from_url g2 url zipped filepath kwargs w.
Proof.
  unfold dispatch_format. intros Hnv. unfold load_data_from_url.
  destruct zipped; cbn [negb].
  - unfold load_zipped. destruct filepath as [fp|]; [|reflexivity].
    cbn [option_map] in Hnv. cbv zeta.
    destruct (detect_file_type fp); try reflexivity.
    exfalso. now apply Hnv.
  - cbv zeta. destruct (detect_file_type url); try reflexivity.
    exfalso. now apply Hnv.
Qed.

Lemma load_reads_namespace_for_vector_only_witness :
  let B := Toy.backend (Toy.serve 200 "OK" "PK..")
             (Toy.archive_of [("Major_Ions.csv", "TDS_mgL")]) in
  load_data_from_url (B := B) module_globals data_url true
    (Some "Major_Ions.csv") [] (Toy.start _ _)
  = load_data_from_url (B := B) [("saws_crs", PyStr "EPSG:2229")] data_url
      true (Some "Major_Ions.csv") [] (Toy.start _ _).
Proof.
  intros B.
  apply (load_reads_namespace_for_vector_only (B := B)).
  cbn. discriminate.
Defined.

(** X12: the structure a load returns is the one of its format: a table
    for csv, txt, xls, xlsx and for an unknown extension, a geospatial
    frame for a vector format, a raster handle for a raster; a zipped
    load without an inner path returns nothing. *)
Theorem load_returns_the_structure_of_the_format {B : Backend} (g : Globals)
    (url : string) (zipped : bool) (filepath : option string)
    (kwargs : Kwargs) (w : World B) (d : Data) (w' : World B) :
  load_data_from_url g url zipped filepath kwargs w = (Ok d, w') ->
  match dispatch_format url zipped filepath with
  | Some (csv | txt | xls | xlsx | unknown) => exists df, d = Tabular df
  | Some vector => exists gdf, d = Geospatial gdf
  | Some raster => exists ds, d = Raster ds
  | None => False
  end.
Proof.
  intros H. destruct (load_returns_inv _ _ _ _ _ _ _ _ H) as (r & _ & H').
  clear H. revert H'. unfold dispatch_format.
  destruct zipped; [destruct filepath as [fp|]|]; cbn [option_map];
    unfold_loader; cbn [negb fs journal note];
    try destruct (detect_file_type _);
    case_calls; intros H; try discriminate H;
    injection H as <- _; eexists; reflexivity.
Qed.

Lemma load_returns_the_structure_of_the_format_witness :
  let B := Toy.backend (Toy.serve 200 "OK" "PK..")
             (Toy.archive_of [("d/a.tif", "II*")]) in
  exists ds,
    Raster (mkDatasetReader "/work/extracted_data/d/a.tif"
                            (list_byte_of_string "II*")) = Raster ds.
Proof.
  intros B.
  exact (load_returns_the_structure_of_the_format (B := B) module_globals
           "http://h/a.zip" true (Some "d/a.tif") [] (Toy.start _ _) _ _
           eq_refl).
Defined.

(** X13: in a zipped load the archive is opened before [filepath] is
    looked at: when the payload does not open as an archive the load
    raises the error of [ZipFile], with or without an inner path, and
    nothing else is called. *)
Theorem bad_archive_raises_first {B : Backend} (g : Globals) (url : string)
    (filepath : option string) (kwargs : Kwargs) (w : World B)
    (r : Response) (e : exn) :
  fetched B url r ->
  zipfile_ZipFile B (content r) = Raise e ->
  load_data_from_url g url true filepath kwargs w
  = (Raise e, then_ w (fs w) [EvGet url user_agent; EvZipFile]).
Proof.
  intros F Hz. rewrite (load_fetched _ _ _ _ _ _ _ F).
  unfold after_fetch, load_zipped, bind, ZipFile, call. cbn [negb fs note].
  rewrite Hz. same_world.
Qed.

Lemma bad_archive_raises_first_witness :
  let B := Toy.backend (Toy.serve 200 "OK" "<html>") Toy.no_archive in
  load_data_from_url (B := B) module_globals "http://h/a.zip" true None []
    (Toy.start _ _)
  = (Raise (LibraryError "BadZipFile" "File is not a zip file"),
     mkWorld (B := B) [] [EvGet "http://h/a.zip" user_agent; EvZipFile]).
Proof.
  intros B.
  exact (bad_archive_raises_first (B := B) module_globals "http://h/a.zip"
           None [] (Toy.start _ _)
           (mkResponse 200 "OK" "http://h/a.zip"
                       (list_byte_of_string "<html>"))
           (LibraryError "BadZipFile" "File is not a zip file")
           (conj eq_refl eq_refl) eq_refl).
Defined.

(** X14: the status check lets through every status below 400 and from
    600 on, not only 200: the load goes on with the response exactly as
    for a 200, and an error can then come from the readers only. *)
Theorem other_status_is_loaded {B : Backend} (g : Globals) (url : string)
    (zipped : bool) (filepath : option string) (kwargs : Kwargs)
    (w : World B) (r : Response) :
  requests_get B url user_agent = Ok r ->
  status_code r < 400 \/ 600 <= status_code r ->
  fetched B url r
  /\ load_data_from_url g url zipped filepath kwargs w
     = after_fetch g url zipped filepath kwargs r
         (note (EvGet url user_agent) w).
Proof.
  intros Hget Hst.
  assert (F : fetched B url r).
  { split; [exact Hget|]. unfold status_passes, raise_for_status, http_error_msg.
    destruct ((400 <=? status_code r) && (status_code r <? 500)) eqn:E1.
    - apply andb_true_iff in E1 as [E1 E2].
      apply Z.leb_le in E1. apply Z.ltb_lt in E2. lia.
    - destruct ((500 <=? status_code r) && (status_code r <? 600)) eqn:E2;
        [|reflexivity].
      apply andb_true_iff in E2 as [E2 E3].
      apply Z.leb_le in E2. apply Z.ltb_lt in E3. lia. }
  split; [exact F|exact (load_fetched _ _ _ _ _ _ _ F)].
Qed.

Lemma other_status_is_loaded_witness :
  let B := Toy.backend (Toy.serve 204 "No Content" "") Toy.no_archive in
  load_data_from_url (B := B) module_globals "http://h/a.csv" false None []
    (Toy.start _ _)
  = (Raise (LibraryError "EmptyDataError" "No data in file"),
     mkWorld (B := B) []
       [EvGet "http://h/a.csv" user_agent;
        EvRead Rcsv (Buffer []) [("low_memory", PyBool false)]]).
Proof.
  intros B.
  rewrite (proj2 (other_status_is_loaded (B := B) module_globals
                    "http://h/a.csv" false None [] (Toy.start _ _)
                    (mkResponse 204 "No Content" "http://h/a.csv" [])
                    eq_refl (or_introl eq_refl))).
  reflexivity.
Defined.

(* ================================================================== *)
(** * Further properties of [lat_long_to_point] *)

Lemma getitem_missing (df : DataFrame) (col : string) :
  ~ In col (column_names df) ->
  getitem df col = Raise (LibraryError "KeyError" col).
Proof.
  unfold getitem, column_names. destruct df as [cols]. cbn [columns].
  induction cols as [|[n v] cols IH]; intros Hn; [reflexivity|].
  cbn [find fst]. destruct (String.eqb_spec n col) as [->|Hne].
  - exfalso. apply Hn. now left.
  - apply IH. intros Hin. apply Hn. now right.
Qed.

Lemma getitem_present (df : DataFrame) (col : string) :
  In col (column_names df) ->
  exists values, getitem df col = Ok values /\ In (col, values) (columns df).
Proof.
  unfold getitem, column_names. destruct df as [cols]. cbn [columns].
  induction cols as [|[n v] cols IH]; intros Hin; [destruct Hin|].
  cbn [find fst]. destruct (String.eqb_spec n col) as [->|Hne].
  - exists v. split; [reflexivity|now left].
  - destruct Hin as [Heq|Hin]; [cbn in Heq; contradiction|].
    destruct (IH Hin) as (values & Hget & Hmem).
    exists values. split; [exact Hget|now right].
Qed.

Lemma getitem_in (df : DataFrame) (col : string) values :
  getitem df col = Ok values -> In (col, values) (columns df).
Proof.
  unfold getitem. destruct df as [cols]. cbn [columns].
  induction cols as [|[n v] cols IH]; [discriminate|].
  cbn [find fst]. destruct (String.eqb_spec n col) as [->|Hne].
  - intros H. injection H as <-. now left.
  - intros H. right. exact (IH H).
Qed.

(** X15: a missing column stops the helper before anything else, under
    any namespace: the longitude column is looked up first, so its
    [KeyError] is the one raised when it is missing, and the latitude
    column's when only that one is missing; no library call is made. *)
Theorem lat_long_to_point_missing_column {B : Backend} (g : Globals)
    (df : DataFrame) (lat_col long_col : string) (w : World B) :
  (~ In long_col (column_names df) ->
   lat_long_to_point g df lat_col long_col w
   = (Raise (LibraryError "KeyError" long_col), w))
  /\ (In long_col (column_names df) ->
      ~ In lat_col (column_names df) ->
      lat_long_to_point g df lat_col long_col w
      = (Raise (LibraryError "KeyError" lat_col), w)).
Proof.
  unfold lat_long_to_point, bind, lift. split.
  - intros Hlong. now rewrite (getitem_missing _ _ Hlong).
  - intros Hlong Hlat. destruct (getitem_present _ _ Hlong) as (v & -> & _).
    now rewrite (getitem_missing _ _ Hlat).
Qed.

Lemma lat_long_to_point_missing_column_witness :
  lat_long_to_point
    (B := Toy.backend (Toy.serve 200 "OK" "") Toy.no_archive)
    module_globals (mkDataFrame [("lat", [CFloat 34.0])]) "lat" "long"
    (Toy.start _ _)
  = (Raise (LibraryError "KeyError" "long"), Toy.start _ _).
Proof.
  apply (proj1 (lat_long_to_point_missing_column
                  (B := Toy.backend (Toy.serve 200 "OK" "") Toy.no_archive)
                  module_globals (mkDataFrame [("lat", [CFloat 34.0])])
                  "lat" "long" (Toy.start _ _))).
  cbn. intros [H|[]]. discriminate H.
Defined.

Lemma length_lon_lat_points longs lats :
  List.length longs = List.length lats ->
  List.length (lon_lat_points longs lats) = List.length longs.
Proof.
  revert lats. induction longs as [|lon longs IH]; intros [|lat lats] H;
    try reflexivity; try discriminate H.
  cbn. f_equal. apply IH. now injection H.
Qed.

(** X16: under a namespace that binds [saws_crs], on a table whose
    columns all have one value per row and whose latitude and longitude
    columns hold floats, the helper builds one point per row, x from the
    longitude and y from the latitude, makes the EPSG:4326 frame of the
    table and these points, and returns what [to_crs] makes of it with
    the bound value as target. *)
Theorem lat_long_to_point_with_target {B : Backend} (g : Globals)
    (df : DataFrame) (lat_col long_col : string) (w : World B)
    (target : PyVal) (longs lats : list float) :
  lookup g "saws_crs" = Some target ->
  rectangular df ->
  getitem df long_col = Ok (map CFloat longs) ->
  getitem df lat_col = Ok (map CFloat lats) ->
  List.length (lon_lat_points longs lats) = nrows df
  /\ lat_long_to_point g df lat_col long_col w
     = (GeoDataFrame_to_crs B
          (mkGeoDataFrame df (lon_lat_points longs lats) (PyStr "EPSG:4326"))
          target,
        note (EvToCrs target) w).
Proof.
  intros Hg Hrect Hlong Hlat.
  assert (Hn : List.length (lon_lat_points longs lats) = nrows df).
  { pose proof (Hrect _ (getitem_in _ _ _ Hlong)) as H1.
    pose proof (Hrect _ (getitem_in _ _ _ Hlat)) as H2.
    cbn [snd] in H1, H2. rewrite length_map in H1, H2.
    rewrite length_lon_lat_points; congruence. }
  split; [exact Hn|].
  exact (lat_long_to_point_bound g df lat_col long_col w target longs lats
           Hg Hlong Hlat Hn).
Qed.

Lemma lat_long_to_point_with_target_witness :
  let B := Toy.backend (Toy.serve 200 "OK" "") Toy.no_archive in
  let df := mkDataFrame [("lat", [CFloat 34.0]); ("long", [CFloat (-118.0)])] in
  lat_long_to_point (B := B) [("saws_crs", PyStr "EPSG:2229")] df "lat" "long"
    (Toy.start _ _)
  = (Ok (mkGeoDataFrame df [mkPoint (-118.0) 34.0] (PyStr "EPSG:2229")),
     mkWorld (B := B) [] [EvToCrs (PyStr "EPSG:2229")]).
Proof.
  intros B df.
  refine (proj2 (lat_long_to_point_with_target (B := B)
                   [("saws_crs", PyStr "EPSG:2229")] df "lat" "long"
                   (Toy.start _ _) (PyStr "EPSG:2229") [(-118.0)%float]
                   [34.0%float] eq_refl _ eq_refl eq_refl)).
  intros c [<-|[<-|[]]]; reflexivity.
Defined.

(* ================================================================== *)
(** * Properties of the script's filters and counts *)

Section ScriptFacts.

Variable compare_object : string -> string -> float -> result bool.

Lemma length_select_le {A} (mask : list bool) (values : list A) :
  (List.length (select mask values) <= List.length values)%nat.
Proof.
  revert values. induction mask as [|b mask IH]; intros [|v values];
    cbn [select List.length]; try lia.
  specialize (IH values). destruct b; cbn [List.length]; lia.
Qed.

Lemma length_select_same {A C} (mask : list bool) (a : list A) (c : list C) :
  List.length a = List.length c ->
  List.length (select mask a) = List.length (select mask c).
Proof.
  revert a c. induction mask as [|b mask IH]; intros [|x a] [|y c] H;
    try reflexivity; try discriminate H.
  injection H as H. cbn [select]. destruct b; cbn [List.length];
    now rewrite (IH a c H).
Qed.

Lemma boolean_index_ok df mask df' :
  boolean_index df mask = Ok df' ->
  List.length mask = nrows df
  /\ columns df' = map (fun c => (fst c, select mask (snd c))) (columns df).
Proof.
  unfold boolean_index. destruct (Nat.eqb_spec (List.length mask) (nrows df));
    [|discriminate].
  intros H. injection H as <-. split; [assumption|reflexivity].
Qed.

Lemma boolean_index_names df mask df' :
  boolean_index df mask = Ok df' -> column_names df' = column_names df.
Proof.
  intros H. apply boolean_index_ok in H as [_ H]. unfold column_names.
  rewrite H, map_map. reflexivity.
Qed.

Lemma boolean_index_nrows df mask df' :
  boolean_index df mask = Ok df' -> (nrows df' <= nrows df)%nat.
Proof.
  intros H. apply boolean_index_ok in H as [_ H]. unfold nrows. rewrite H.
  destruct (columns df) as [|[n v] cols]; cbn [map fst snd]; [lia|].
  apply length_select_le.
Qed.

Lemma boolean_index_rectangular df mask df' :
  rectangular df -> boolean_index df mask = Ok df' -> rectangular df'.
Proof.
  intros Hrect H. apply boolean_index_ok in H as [_ H].
  intros c Hc. rewrite H in Hc. apply in_map_iff in Hc as ([n v] & <- & Hin).
  cbn [fst snd]. unfold nrows at 1. rewrite H.
  destruct (columns df) as [|[n0 v0] cols] eqn:Hcols; [destruct Hin|].
  cbn [map fst snd]. apply length_select_same.
  pose proof (Hrect (n, v)) as H1. pose proof (Hrect (n0, v0)) as H2.
  rewrite Hcols in H1, H2. cbn [snd] in H1, H2.
  rewrite (H1 Hin), (H2 (or_introl eq_refl)). reflexivity.
Qed.

Lemma filter_rows_ok cmp df col df' :
  filter_rows cmp df col = Ok df' ->
  exists values mask,
    getitem df col = Ok values /\ series cmp values = Ok mask
    /\ boolean_index df mask = Ok df'.
Proof.
  unfold filter_rows.
  destruct (getitem df col) as [values|e] eqn:Hget; [|discriminate].
  destruct (series cmp values) as [mask|e] eqn:Hmask; [|discriminate].
  intros H. exists values, mask.
  split; [reflexivity|split; [exact Hmask|exact H]].
Qed.

Lemma series_of_floats (p : float -> bool) cmp (l : list float) :
  (forall f, cmp (CFloat f) = Ok (p f)) ->
  series cmp (map CFloat l) = Ok (map p l).
Proof.
  intros Hcmp. induction l as [|f l IH]; [reflexivity|].
  cbn [map series]. now rewrite Hcmp, IH.
Qed.

Lemma getitem_boolean_index df mask df' col :
  boolean_index df mask = Ok df' ->
  getitem df' col = result_map (select mask) (getitem df col).
Proof.
  intros H. apply boolean_index_ok in H as [_ H]. unfold getitem.
  rewrite H. destruct df as [cols]. cbn [columns]. clear H.
  induction cols as [|[n v] cols IH]; [reflexivity|].
  cbn [map find fst snd]. destruct (String.eqb n col); [reflexivity|exact IH].
Qed.

Lemma select_nil {A} (mask : list bool) : select mask (@nil A) = [].
Proof. destruct mask; reflexivity. Qed.

Lemma select_both {A} (tds cbs : list float) (values : list A) :
  select (map (fun c => PrimFloat.ltb c double_0_1)
              (select (map (PrimFloat.leb 1000) tds) cbs))
         (select (map (PrimFloat.leb 1000) tds) values)
  = select (both_hold tds cbs) values.
Proof.
  revert cbs values. induction tds as [|t tds IH]; intros cbs values;
    [reflexivity|].
  destruct cbs as [|c cbs]; [reflexivity|].
  destruct values as [|v values].
  - cbn [map select both_hold]. now rewrite select_nil.
  - cbn [map select both_hold].
    destruct (PrimFloat.leb 1000 t); cbn [map select andb].
    + destruct (PrimFloat.ltb c double_0_1); now rewrite IH.
    + apply IH.
Qed.

End ScriptFacts.

Lemma filter_rows_len cmp df col df' :
  filter_rows cmp df col = Ok df' -> 0 <= len df' <= len df.
Proof.
  intros H. destruct (filter_rows_ok _ _ _ _ H) as (values & mask & _ & _ & Hb).
  pose proof (boolean_index_nrows _ _ _ Hb). unfold len. lia.
Qed.

(** X17: a row filter [df[cmp(df[col])]] that succeeds keeps the column
    names, keeps a table whose columns all have one value per row in that
    shape, and never adds rows. *)
Theorem filter_rows_keeps_the_shape (cmp : Cell -> result bool)
    (df : DataFrame) (col : string) (df' : DataFrame) :
  filter_rows cmp df col = Ok df' ->
  column_names df' = column_names df
  /\ (rectangular df -> rectangular df')
  /\ 0 <= len df' <= len df.
Proof.
  intros H. destruct (filter_rows_ok _ _ _ _ H) as (values & mask & _ & _ & Hb).
  split; [exact (boolean_index_names _ _ _ Hb)|].
  split; [intros Hrect; exact (boolean_index_rectangular _ _ _ Hrect Hb)|].
  exact (filter_rows_len _ _ _ _ H).
Qed.

Lemma filter_rows_keeps_the_shape_witness :
  column_names
    (mkDataFrame [("TDS_mgL", [CFloat 2500]); ("site", [CObj "B"])])
  = ["TDS_mgL"; "site"].
Proof.
  exact (proj1 (filter_rows_keeps_the_shape
                  (cell_ge (fun _ _ _ => Raise (LibraryError "TypeError" ""))
                           1000)
                  (mkDataFrame [("TDS_mgL", [CFloat 500; CFloat 2500]);
                                ("site", [CObj "A"; CObj "B"])])
                  "TDS_mgL"
                  (mkDataFrame [("TDS_mgL", [CFloat 2500]);
                                ("site", [CObj "B"])])
                  eq_refl)).
Defined.

(** X18: when the script's filters succeed, its counts add up: the rows
    it reports as excluded by the first filter and those it keeps make
    the total, the rows excluded by the second filter and those it keeps
    make the first filter's count, and no count is negative. *)
Theorem report_counts_add_up
    (compare_object : string -> string -> float -> result bool)
    (data : DataFrame) (rep : Report) :
  report compare_object data = Ok rep ->
  num_rows_total rep = len data
  /\ num_rows_total rep = num_rows_filtered rep + num_rows_excluded rep
  /\ num_rows_filtered rep = num_rows_filtered2 rep + num_rows_excluded2 rep
  /\ num_rows_filtered2 rep = len (filtered_data rep)
  /\ 0 <= num_rows_filtered2 rep
  /\ 0 <= num_rows_excluded2 rep
  /\ 0 <= num_rows_excluded rep.
Proof.
  unfold report.
  destruct (filter_rows (cell_ge compare_object 1000) data "TDS_mgL")
    as [fd|e] eqn:H1; [|discriminate].
  destruct (filter_rows (cell_lt compare_object double_0_1) fd
              "charge_balance_eq") as [fd2|e] eqn:H2; [|discriminate].
  intros H. injection H as <-. cbn.
  pose proof (filter_rows_len _ _ _ _ H1) as B1.
  pose proof (filter_rows_len _ _ _ _ H2) as B2.
  lia.
Qed.

Lemma report_counts_add_up_witness :
  exists rep,
    report (fun _ _ _ => Raise (LibraryError "TypeError" ""))
      (mkDataFrame
         [("TDS_mgL", [CFloat 500; CFloat 2500; CFloat 1000]);
          ("charge_balance_eq", [CFloat 0.5; CFloat 0.5; CFloat 0.0625])])
    = Ok rep
    /\ num_rows_total rep = 3
    /\ 3 = num_rows_filtered rep + num_rows_excluded rep
    /\ num_rows_filtered2 rep = 1.
Proof.
  eexists. split; [reflexivity|].
  destruct (report_counts_add_up
              (fun _ _ _ => Raise (LibraryError "TypeError" ""))
              (mkDataFrame
                 [("TDS_mgL", [CFloat 500; CFloat 2500; CFloat 1000]);
                  ("charge_balance_eq",
                   [CFloat 0.5; CFloat 0.5; CFloat 0.0625])])
              _ eq_refl) as (Ht & Hsum & _).
  split; [exact Ht|]. split; [exact Hsum|reflexivity].
Defined.

(** X19: the script names the column it misses: without a column
    [TDS_mgL] the filters fail with its [KeyError]; when the first filter
    has succeeded and the table has no column [charge_balance_eq], they
    fail with the [KeyError] of that one. *)
Theorem report_misses_a_column
    (compare_object : string -> string -> float -> result bool)
    (data : DataFrame) :
  (~ In "TDS_mgL" (column_names data) ->
   report compare_object data = Raise (LibraryError "KeyError" "TDS_mgL"))
  /\ (forall kept,
        filter_rows (cell_ge compare_object 1000) data "TDS_mgL" = Ok kept ->
        ~ In "charge_balance_eq" (column_names data) ->
        report compare_object data
        = Raise (LibraryError "KeyError" "charge_balance_eq")).
Proof.
  unfold report. split.
  - intros Hmiss. unfold filter_rows at 1.
    now rewrite (getitem_missing _ _ Hmiss).
  - intros kept Hkept Hmiss. rewrite Hkept.
    destruct (filter_rows_ok _ _ _ _ Hkept) as (values & mask & _ & _ & Hb).
    unfold filter_rows. rewrite (getitem_missing kept "charge_balance_eq");
      [reflexivity|].
    now rewrite (boolean_index_names _ _ _ Hb).
Qed.

Lemma report_misses_a_column_witness :
  report (fun _ _ _ => Raise (LibraryError "TypeError" ""))
    (mkDataFrame [("TDS_mgL", [CFloat 500; CFloat 2500])])
  = Raise (LibraryError "KeyError" "charge_balance_eq").
Proof.
  refine (proj2 (report_misses_a_column
                   (fun _ _ _ => Raise (LibraryError "TypeError" ""))
                   (mkDataFrame [("TDS_mgL", [CFloat 500; CFloat 2500])]))
                (mkDataFrame [("TDS_mgL", [CFloat 2500])]) eq_refl _).
  cbn. intros [H|[]]. discriminate H.
Defined.

(** X20: on a table whose columns all have one value per row and whose
    columns [TDS_mgL] and [charge_balance_eq] hold floats, the two
    filters of the script succeed and amount to one: in every column the
    rows left are exactly those whose TDS is at least 1000 and whose
    charge balance is below 0.1, in their original order. *)
Theorem report_keeps_rows_meeting_both
    (compare_object : string -> string -> float -> result bool)
    (data : DataFrame) (tds cbs : list float) :
  rectangular data ->
  getitem data "TDS_mgL" = Ok (map CFloat tds) ->
  getitem data "charge_balance_eq" = Ok (map CFloat cbs) ->
  exists rep,
    report compare_object data = Ok rep
    /\ columns (filtered_data rep)
       = map (fun c => (fst c, select (both_hold tds cbs) (snd c)))
             (columns data).
Proof.
  intros Hrect Htds Hcbs.
  set (m1 := map (PrimFloat.leb 1000) tds).
  set (m2 := map (fun c => PrimFloat.ltb c double_0_1) (select m1 cbs)).
  pose proof (Hrect _ (getitem_in _ _ _ Htds)) as Ltds.
  pose proof (Hrect _ (getitem_in _ _ _ Hcbs)) as Lcbs.
  cbn [snd] in Ltds, Lcbs. rewrite length_map in Ltds, Lcbs.
  (* the first filter *)
  assert (H1 : filter_rows (cell_ge compare_object 1000) data "TDS_mgL"
               = boolean_index data m1).
  { unfold filter_rows. rewrite Htds.
    now rewrite (series_of_floats (PrimFloat.leb 1000)). }
  destruct (boolean_index data m1) as [kept|e] eqn:Hb1.
  2:{ exfalso. unfold boolean_index in Hb1. unfold m1 in Hb1.
      rewrite length_map, Ltds, Nat.eqb_refl in Hb1. discriminate Hb1. }
  destruct (boolean_index_ok _ _ _ Hb1) as [_ Hcols1].
  (* the second filter *)
  assert (Hget2 : getitem kept "charge_balance_eq"
                  = Ok (map CFloat (select m1 cbs))).
  { rewrite (getitem_boolean_index _ _ _ _ Hb1), Hcbs. cbn [result_map].
    f_equal. clear. revert cbs. induction m1 as [|b m IH]; intros [|c cbs];
      try reflexivity.
    cbn [map select]. destruct b; cbn [map]; now rewrite IH. }
  assert (H2 : filter_rows (cell_lt compare_object double_0_1) kept
                 "charge_balance_eq" = boolean_index kept m2).
  { unfold filter_rows. rewrite Hget2.
    now rewrite (series_of_floats (fun c => PrimFloat.ltb c double_0_1)). }
  assert (Hlen2 : List.length m2 = nrows kept).
  { unfold m2. rewrite length_map. unfold nrows. rewrite Hcols1.
    destruct (columns data) as [|[n0 v0] cols] eqn:Hcols.
    - exfalso. apply getitem_in in Htds. now rewrite Hcols in Htds.
    - cbn [map fst snd]. apply length_select_same.
      unfold nrows in Lcbs. rewrite Hcols in Lcbs. exact Lcbs. }
  unfold report. rewrite H1, H2. unfold boolean_index at 1.
  rewrite Hlen2, Nat.eqb_refl. eexists. split; [reflexivity|].
  cbn [filtered_data columns]. rewrite Hcols1, map_map.
  apply map_ext. intros [n v]. cbn [fst snd]. f_equal.
  apply select_both.
Qed.

Lemma report_keeps_rows_meeting_both_witness :
  exists rep,
    report (fun _ _ _ => Raise (LibraryError "TypeError" ""))
      (mkDataFrame
         [("site", [CObj "A"; CObj "B"; CObj "C"]);
          ("TDS_mgL", [CFloat 500; CFloat 2500; CFloat 1000]);
          ("charge_balance_eq", [CFloat 0.5; CFloat 0.5; CFloat 0.0625])])
    = Ok rep
    /\ columns (filtered_data rep)
       = [("site", [CObj "C"]); ("TDS_mgL", [CFloat 1000]);
          ("charge_balance_eq", [CFloat 0.0625])].
Proof.
  destruct (report_keeps_rows_meeting_both
              (fun _ _ _ => Raise (LibraryError "TypeError" ""))
              (mkDataFrame
                 [("site", [CObj "A"; CObj "B"; CObj "C"]);
                  ("TDS_mgL", [CFloat 500; CFloat 2500; CFloat 1000]);
                  ("charge_balance_eq",
                   [CFloat 0.5; CFloat 0.5; CFloat 0.0625])])
              [500; 2500; 1000]%float [0.5; 0.5; 0.0625]%float)
    as (rep & Hrep & Hcols).
  - intros c [<-|[<-|[<-|[]]]]; reflexivity.
  - reflexivity.
  - reflexivity.
  - exists rep. split; [exact Hrep|exact Hcols].
Defined.
